(** * necrobot: the race-results ledger of [necrobot/botbase/necrodb.py]

    A shallow embedding of the database layer of necrobot.  Every function of
    [necrodb.py] opens a [with DBConnect(commit=...) as cursor] scope and sends
    SQL statements through the cursor.  Here

    - a table is a finite map from its primary key to the rest of the row;
    - the body of a [with] scope is a computation over the session's view of
      the tables that either returns a value or raises an exception;
    - [DBConnect] is the scope itself: it runs the body and, when it was
      opened with [commit=True], commits on the way out;
    - the text of a statement is kept as the string the Python source builds,
      and is split into words the way the MySQL lexer does it. *)

From Stdlib Require Import ZArith QArith Ascii String.
From stdpp Require Import gmap strings list fin_maps sorting.

Close Scope Q_scope.
Open Scope Z_scope.

(** ** Exceptions and the cursor monad *)

(** The exceptions the modelled code can raise: [mysql.connector]'s
    [IntegrityError] (duplicate primary key), [ProgrammingError] (a
    statement the server does not accept) and [InternalError] (a cursor
    closed on a result that was not read to its end), and Python's
    [TypeError] (subscripting [None]). *)
Inductive exn : Type :=
  | IntegrityError
  | ProgrammingError
  | InternalError
  | TypeError.

Inductive outcome (A : Type) : Type :=
  | Returned (a : A)
  | Raised (e : exn).
Arguments Returned {A} a.
Arguments Raised {A} e.

Definition is_raised {A} (o : outcome A) : bool :=
  match o with Returned _ => false | Raised _ => true end.

(** ** Rows *)

(** [user_data(discord_id PK, name, twitch_name, rtmp_name, timezone,
    user_info, daily_alert, race_alert)].  A text column may hold NULL. *)
Record user_row : Type := {
  u_name : option string;
  u_twitch_name : option string;
  u_rtmp_name : option string;
  u_timezone : option string;
  u_user_info : option string;
  u_daily_alert : bool;
  u_race_alert : bool
}.

(** [race_data(race_id PK, timestamp, character_name, descriptor, flags, seed,
    seeded, amplified, condor, private)]. *)
Record race_row : Type := {
  rc_timestamp : string;
  rc_character_name : string;
  rc_descriptor : string;
  rc_flags : Z;
  rc_seed : Z;
  rc_seeded : bool;
  rc_amplified : bool;
  rc_condor : bool;
  rc_private : bool
}.

(** [racer_data(race_id, discord_id, time, rank, igt, comment, level)], key
    [(race_id, discord_id)]. *)
Record racer_row : Type := {
  rr_time : Z;
  rr_rank : Z;
  rr_igt : Z;
  rr_comment : string;
  rr_level : Z
}.

(** [daily_races(discord_id, daily_id, type, level, time)], key
    [(discord_id, daily_id, type)]. *)
Record daily_race_row : Type := {
  dr_level : Z;
  dr_time : Z
}.

(** [ladder_data(discord_id PK, trueskill_mu, trueskill_sigma)].  The values
    are Python floats, modelled as rationals. *)
Record ladder_row : Type := {
  trueskill_mu : Q;
  trueskill_sigma : Q
}.

(** Modelled from the spec: the schema ([CREATE TABLE] is not under src/).
    Section 6 of the specification gives the tables, their columns and their
    primary keys; a table is the finite map from its key. *)
Record db : Type := {
  user_data : gmap Z user_row;
  race_data : gmap Z race_row;
  racer_data : gmap (Z * Z) racer_row;
  daily_races : gmap (Z * Z * Z) daily_race_row;
  ladder_data : gmap Z ladder_row
}.

Definition empty_db : db :=
  {| user_data := ∅; race_data := ∅; racer_data := ∅;
     daily_races := ∅; ladder_data := ∅ |}.

Definition with_user_data (f : gmap Z user_row → gmap Z user_row) (d : db) : db :=
  {| user_data := f (user_data d); race_data := race_data d;
     racer_data := racer_data d; daily_races := daily_races d;
     ladder_data := ladder_data d |}.

Definition with_race_data (f : gmap Z race_row → gmap Z race_row) (d : db) : db :=
  {| user_data := user_data d; race_data := f (race_data d);
     racer_data := racer_data d; daily_races := daily_races d;
     ladder_data := ladder_data d |}.

Definition with_racer_data
    (f : gmap (Z * Z) racer_row → gmap (Z * Z) racer_row) (d : db) : db :=
  {| user_data := user_data d; race_data := race_data d;
     racer_data := f (racer_data d); daily_races := daily_races d;
     ladder_data := ladder_data d |}.

Definition with_daily_races
    (f : gmap (Z * Z * Z) daily_race_row → gmap (Z * Z * Z) daily_race_row)
    (d : db) : db :=
  {| user_data := user_data d; race_data := race_data d;
     racer_data := racer_data d; daily_races := f (daily_races d);
     ladder_data := ladder_data d |}.

Definition with_ladder_data
    (f : gmap Z ladder_row → gmap Z ladder_row) (d : db) : db :=
  {| user_data := user_data d; race_data := race_data d;
     racer_data := racer_data d; daily_races := daily_races d;
     ladder_data := f (ladder_data d) |}.

(** ** The cursor: statements run against the session *)

(** The body of a [with DBConnect(...) as cursor] block. *)
Definition Cursor (A : Type) : Type := db → outcome A * db.

Definition ret {A} (a : A) : Cursor A := λ d, (Returned a, d).

Definition raise {A} (e : exn) : Cursor A := λ d, (Raised e, d).

Definition bind {A B} (m : Cursor A) (k : A → Cursor B) : Cursor B :=
  λ d, match m d with
       | (Returned a, d') => k a d'
       | (Raised e, d') => (Raised e, d')
       end.

Notation "'let*' x ':=' m 'in' k" := (bind m (λ x, k))
  (at level 10, x name, m at level 100, k at level 200, only parsing).
Notation "'run' m 'in' k" := (bind m (λ _, k))
  (at level 10, m at level 100, k at level 200, only parsing).

(** ** The text of a statement *)

(** MySQL reads a run of letters, digits, [_] and [$] as one word: a word that
    starts with a digit and goes on with a letter is an identifier, not a
    number followed by a keyword.  A quoted literal is one word. *)
Definition is_digit (c : ascii) : bool :=
  let n := nat_of_ascii c in (48 <=? n)%nat && (n <=? 57)%nat.

Definition is_word_char (c : ascii) : bool :=
  let n := nat_of_ascii c in
  is_digit c
  || ((65 <=? n)%nat && (n <=? 90)%nat)
  || ((97 <=? n)%nat && (n <=? 122)%nat)
  || (n =? 95)%nat || (n =? 36)%nat.

Definition is_quote (c : ascii) : bool := (nat_of_ascii c =? 39)%nat.
Definition is_space (c : ascii) : bool := (nat_of_ascii c =? 32)%nat.

Definition flush (word : list ascii) (acc : list string) : list string :=
  match word with
  | [] => acc
  | _ => string_of_list_ascii (rev word) :: acc
  end.

(** [word] is the word being read, last character first; [quoted] says that
    the reader is inside a quoted literal; [acc] holds the words read, last
    one first. *)
Fixpoint sql_words_aux (quoted : bool) (word : list ascii) (acc : list string)
    (text : list ascii) : list string :=
  match text with
  | [] => rev (flush word acc)
  | c :: text' =>
      if quoted then
        if is_quote c then sql_words_aux false [] (flush (c :: word) acc) text'
        else sql_words_aux true (c :: word) acc text'
      else if is_quote c then sql_words_aux true [c] (flush word acc) text'
      else if is_word_char c then sql_words_aux false (c :: word) acc text'
      else if is_space c then sql_words_aux false [] (flush word acc) text'
      else sql_words_aux false []
             (string_of_list_ascii [c] :: flush word acc) text'
  end.

Definition sql_words (text : string) : list string :=
  sql_words_aux false [] [] (list_ascii_of_string text).

(** A word that starts with a digit and is not a number. *)
Definition digit_led_name (w : string) : bool :=
  match list_ascii_of_string w with
  | c :: rest => is_digit c && negb (forallb is_digit rest)
  | [] => false
  end.

(** No table of the schema has a column whose name starts with a digit, so
    the server rejects a statement in which such a word stands. *)
Definition accepted (text : string) : bool :=
  forallb (λ w, negb (digit_led_name w)) (sql_words text).

(** [cursor.execute(text, params)]: the statement [stmt] runs when the server
    accepts its text, and [ProgrammingError] is raised otherwise.  A statement
    that raises writes nothing. *)
Definition execute {A} (text : string) (stmt : Cursor A) : Cursor A :=
  if accepted text then stmt else raise ProgrammingError.

(** ** [DBConnect] *)

(** The one connection of the process: what is committed, and what the
    session sees (its own uncommitted writes included). *)
Record connection : Type := {
  committed : db;
  session : db
}.

Definition fresh_connection (d : db) : connection :=
  {| committed := d; session := d |}.

(** [with DBConnect(commit) as cursor: body], on a connection that is up
    ([__enter__] raises [RuntimeError] on one that is not).  [__exit__] is

      if self.commit: DBConnect.db_connection.commit()
      self.cursor.close()

    and does not look at [exc_type]: it commits when the body returned and
    when it raised, and the exception goes on to the caller.  What
    [cursor.close()] does when the body left a result unread is part of
    [fetching] below. *)
Definition DBConnect {A} (commit : bool) (body : Cursor A)
    (c : connection) : outcome A * connection :=
  let '(r, s) := body (session c) in
  (r, {| committed := if commit then s else committed c; session := s |}).

(** ** Results of a [SELECT] *)

(** [ORDER BY col DESC LIMIT 1] over the values of [col]: the largest one, or
    no row. *)
Definition order_by_desc_limit_1 (l : list Z) : list Z :=
  match l with
  | [] => []
  | x :: l' => [foldr Z.max x l']
  end.

(** [list.sort(key=...)] is stable: elements with equal keys keep their
    order.  A stable sort is determined by the keys, so it is modelled by
    stable insertion. *)
Fixpoint insert_by_key {A} (key : A → Z) (x : A) (l : list A) : list A :=
  match l with
  | [] => [x]
  | y :: l' =>
      if key x <=? key y then x :: y :: l' else y :: insert_by_key key x l'
  end.

Fixpoint sort_by_key {A} (key : A → Z) (l : list A) : list A :=
  match l with
  | [] => []
  | x :: l' => insert_by_key key x (sort_by_key key l')
  end.

(** ** The Python objects handed to the engine *)

(** [discord.Member]: the fields the engine reads. *)
Record Member : Type := {
  member_id : Z;
  member_name : string;
  member_display_name : string
}.

(** A racer of a race: [racer.id], [racer.name], [racer.time],
    [racer.is_finished], [racer.igt], [racer.comment], [racer.level]. *)
Record Racer : Type := {
  racer_id : Z;
  racer_name : string;
  racer_time : Z;
  is_finished : bool;
  racer_igt : Z;
  racer_comment : string;
  racer_level : Z
}.

Record RaceInfo : Type := {
  character_str : string;
  descriptor : string;
  flags : Z;
  seed : Z;
  seeded : bool;
  amplified : bool;
  condor_race : bool;
  private_race : bool
}.

(** [start_datetime] stands for the text
    [race.start_datetime.strftime('%Y-%m-%d %H:%M:%S')]. *)
Record Race : Type := {
  start_datetime : string;
  race_info : RaceInfo;
  racers : list Racer
}.

(** Modelled from the spec: [UserPrefs] of [necrobot.user.userprefs], which is
    not under src/; the specification's [Preferences{daily_alert, race_alert}],
    each field possibly unset. *)
Record UserPrefs : Type := {
  daily_alert : option bool;
  race_alert : option bool
}.

(** ** Column updates on a [user_data] row *)

Definition set_u_name (v : option string) (u : user_row) : user_row :=
  {| u_name := v; u_twitch_name := u_twitch_name u;
     u_rtmp_name := u_rtmp_name u; u_timezone := u_timezone u;
     u_user_info := u_user_info u; u_daily_alert := u_daily_alert u;
     u_race_alert := u_race_alert u |}.

Definition set_u_twitch_name (v : option string) (u : user_row) : user_row :=
  {| u_name := u_name u; u_twitch_name := v;
     u_rtmp_name := u_rtmp_name u; u_timezone := u_timezone u;
     u_user_info := u_user_info u; u_daily_alert := u_daily_alert u;
     u_race_alert := u_race_alert u |}.

Definition set_u_rtmp_name (v : option string) (u : user_row) : user_row :=
  {| u_name := u_name u; u_twitch_name := u_twitch_name u;
     u_rtmp_name := v; u_timezone := u_timezone u;
     u_user_info := u_user_info u; u_daily_alert := u_daily_alert u;
     u_race_alert := u_race_alert u |}.

Definition set_u_timezone (v : option string) (u : user_row) : user_row :=
  {| u_name := u_name u; u_twitch_name := u_twitch_name u;
     u_rtmp_name := u_rtmp_name u; u_timezone := v;
     u_user_info := u_user_info u; u_daily_alert := u_daily_alert u;
     u_race_alert := u_race_alert u |}.

Definition set_u_user_info (v : option string) (u : user_row) : user_row :=
  {| u_name := u_name u; u_twitch_name := u_twitch_name u;
     u_rtmp_name := u_rtmp_name u; u_timezone := u_timezone u;
     u_user_info := v; u_daily_alert := u_daily_alert u;
     u_race_alert := u_race_alert u |}.

(** ** Statements *)

(** [UPDATE user_data SET col=%s WHERE discord_id=%s]: the row of that key is
    rewritten when there is one; no row matches otherwise, which is no
    error. *)
Definition update_user (discord_id : Z) (f : user_row → user_row) : Cursor unit :=
  λ d, (Returned (), with_user_data (alter f discord_id) d).

(** [INSERT INTO t ... VALUES ...] without [ON DUPLICATE KEY UPDATE]: a row
    of the same key makes the statement fail with [IntegrityError]. *)
Definition insert_race_data (race_id : Z) (row : race_row) : Cursor unit :=
  λ d, match race_data d !! race_id with
       | Some _ => (Raised IntegrityError, d)
       | None => (Returned (), with_race_data (insert race_id row) d)
       end.

Definition insert_racer_data (key : Z * Z) (row : racer_row) : Cursor unit :=
  λ d, match racer_data d !! key with
       | Some _ => (Raised IntegrityError, d)
       | None => (Returned (), with_racer_data (insert key row) d)
       end.

(** [SELECT race_id FROM race_data ORDER BY race_id DESC LIMIT 1]. *)
Definition select_last_race_id : Cursor (list Z) :=
  λ d, (Returned (order_by_desc_limit_1 (map_to_list (race_data d)).*1), d).

(** [SELECT daily_alert, race_alert FROM user_data WHERE discord_id=%s],
    then [cursor.fetchone()]: the row, or [None]. *)
Definition select_prefs (discord_id : Z) : Cursor (option (bool * bool)) :=
  λ d, (Returned ((λ u, (u_daily_alert u, u_race_alert u)) <$> user_data d !! discord_id), d).

Section Engine.

(** The values a new [user_data] row takes in the columns an [INSERT] does
    not list: the column defaults of the schema, which is not under src/. *)
Variable default_user : user_row.

(** [INSERT INTO user_data (discord_id, name) VALUES (%s,%s)
     ON DUPLICATE KEY UPDATE name=VALUES(name)]. *)
Definition upsert_user_name (discord_id : Z) (name : string) : Cursor unit :=
  λ d, (Returned (),
        with_user_data
          (λ m, <[discord_id :=
                    set_u_name (Some name) (default default_user (m !! discord_id))]> m)
          d).

(** *** User registry *)

Definition register_user_sql : string :=
  "INSERT INTO user_data " +:+
  "(discord_id, name) " +:+
  "VALUES (%s,%s) " +:+
  "ON DUPLICATE KEY UPDATE " +:+
  "name=VALUES(name)".

Definition register_user (member : Member) : connection → outcome () * connection :=
  DBConnect true
    (execute register_user_sql
       (upsert_user_name (member_id member) (member_name member))).

Definition get_prefs_sql : string :=
  "SELECT daily_alert, race_alert " +:+
  "FROM user_data " +:+
  "WHERE discord_id=%s".

(** [prefs_row[0]] raises [TypeError] when [fetchone()] gave [None]. *)
Definition get_prefs (discord_id : Z) : connection → outcome UserPrefs * connection :=
  DBConnect false
    (let* prefs_row := execute get_prefs_sql (select_prefs discord_id) in
     match prefs_row with
     | None => raise TypeError
     | Some (d, r) => ret {| daily_alert := Some d; race_alert := Some r |}
     end).

Definition set_timezone_sql : string :=
  "UPDATE user_data " +:+ "SET timezone=%s " +:+ "WHERE discord_id=%s".

Definition set_timezone (discord_id : Z) (timezone : string)
    : connection → outcome () * connection :=
  DBConnect true
    (execute set_timezone_sql (update_user discord_id (set_u_timezone (Some timezone)))).

Definition set_rtmp_sql : string :=
  "UPDATE user_data " +:+ "SET rtmp_name=%s " +:+ "WHERE discord_id=%s".

Definition set_rtmp (discord_id : Z) (rtmp_name : string)
    : connection → outcome () * connection :=
  DBConnect true
    (execute set_rtmp_sql (update_user discord_id (set_u_rtmp_name (Some rtmp_name)))).

Definition set_twitch_sql : string :=
  "UPDATE user_data " +:+ "SET twitch_name=%s " +:+ "WHERE discord_id=%s".

Definition set_twitch (discord_id : Z) (twitch_name : string)
    : connection → outcome () * connection :=
  DBConnect true
    (execute set_twitch_sql (update_user discord_id (set_u_twitch_name (Some twitch_name)))).

Definition set_user_info_sql : string :=
  "UPDATE user_data " +:+ "SET user_info=%s " +:+ "WHERE discord_id=%s".

Definition set_user_info (discord_id : Z) (user_info : string)
    : connection → outcome () * connection :=
  DBConnect true
    (execute set_user_info_sql (update_user discord_id (set_u_user_info (Some user_info)))).

(** *** Race recorder *)

Definition select_last_race_id_sql : string :=
  "SELECT race_id FROM race_data ORDER BY race_id DESC LIMIT 1".

Definition insert_race_data_sql : string :=
  "INSERT INTO race_data " +:+
  "(race_id, timestamp, character_name, descriptor, flags, seed, seeded, amplified, condor, private) " +:+
  "VALUES (%s,%s,%s,%s,%s,%s,%s,%s,%s,%s)".

Definition insert_racer_data_sql : string :=
  "INSERT INTO racer_data " +:+
  "(race_id, discord_id, time, rank, igt, comment, level) " +:+
  "VALUES (%s,%s,%s,%s,%s,%s,%s)".

Definition upsert_racer_sql : string :=
  "INSERT INTO user_data " +:+
  "(discord_id, name) " +:+
  "VALUES (%s,%s) " +:+
  "ON DUPLICATE KEY UPDATE " +:+
  "discord_id=VALUES(discord_id), " +:+
  "name=VALUES(name)".

(** [new_raceid = 0; for row in cursor: new_raceid = row[0] + 1; break]. *)
Definition new_raceid_of (rows : list Z) : Z :=
  match rows with
  | row :: _ => row + 1
  | [] => 0
  end.

Definition race_params (race : Race) : race_row :=
  {| rc_timestamp := start_datetime race;
     rc_character_name := character_str (race_info race);
     rc_descriptor := descriptor (race_info race);
     rc_flags := flags (race_info race);
     rc_seed := seed (race_info race);
     rc_seeded := seeded (race_info race);
     rc_amplified := amplified (race_info race);
     rc_condor := condor_race (race_info race);
     rc_private := private_race (race_info race) |}.

Definition racer_params (racer : Racer) (rank : Z) : racer_row :=
  {| rr_time := racer_time racer; rr_rank := rank; rr_igt := racer_igt racer;
     rr_comment := racer_comment racer; rr_level := racer_level racer |}.

(** [max_time = 0; for racer in race.racers: if racer.is_finished:
    max_time = max(racer.time, max_time)], then [max_time += 1]. *)
Definition max_time_of (l : list Racer) : Z :=
  foldl (λ max_time racer,
           if is_finished racer then Z.max (racer_time racer) max_time
           else max_time) 0 l + 1.

(** [key=lambda r: r.time if r.is_finished else max_time]. *)
Definition sort_key (max_time : Z) (r : Racer) : Z :=
  if is_finished r then racer_time r else max_time.

(** The loop [for racer in racer_list], [rank] being the loop's counter. *)
Fixpoint record_racers (new_raceid : Z) (rank : Z) (racer_list : list Racer)
    : Cursor () :=
  match racer_list with
  | [] => ret ()
  | racer :: rest =>
      run execute insert_racer_data_sql
            (insert_racer_data (new_raceid, racer_id racer) (racer_params racer rank)) in
      let rank := if is_finished racer then rank + 1 else rank in
      run execute upsert_racer_sql
            (upsert_user_name (racer_id racer) (racer_name racer)) in
      record_racers new_raceid rank rest
  end.

Definition record_race_body (race : Race) : Cursor () :=
  let* rows := execute select_last_race_id_sql select_last_race_id in
  let new_raceid := new_raceid_of rows in
  run execute insert_race_data_sql
        (insert_race_data new_raceid (race_params race)) in
  let max_time := max_time_of (racers race) in
  let racer_list := sort_by_key (sort_key max_time) (racers race) in
  record_racers new_raceid 1 racer_list.

Definition record_race (race : Race) : connection → outcome () * connection :=
  DBConnect true (record_race_body race).

End Engine.

(** ** Daily challenge tracker *)

(** [SELECT discord_id FROM daily_races WHERE discord_id=%s AND daily_id=%s
    AND type=%s], with [AND level != -1] when [submitted]: the rows of the
    result. *)
Definition select_daily_row (discord_id daily_id daily_type : Z)
    (submitted : bool) : Cursor (list Z) :=
  λ d, (Returned
          match daily_races d !! (discord_id, daily_id, daily_type) with
          | Some row =>
              if submitted && (dr_level row =? -1) then [] else [discord_id]
          | None => []
          end, d).

(** [SELECT daily_id FROM daily_races WHERE discord_id=%s AND type=%s
    ORDER BY daily_id DESC LIMIT 1]. *)
Definition select_registered_ids (discord_id daily_type : Z) : Cursor (list Z) :=
  λ d, (Returned
          (order_by_desc_limit_1
             ((λ kv : Z * Z * Z * daily_race_row, kv.1.1.2) <$>
              List.filter
                (λ kv : Z * Z * Z * daily_race_row,
                   (kv.1.1.1 =? discord_id) && (kv.1.2 =? daily_type))
                (map_to_list (daily_races d)))), d).

(** The same with [AND level != -1]. *)
Definition select_submitted_ids (discord_id daily_type : Z) : Cursor (list Z) :=
  λ d, (Returned
          (order_by_desc_limit_1
             ((λ kv : Z * Z * Z * daily_race_row, kv.1.1.2) <$>
              List.filter
                (λ kv : Z * Z * Z * daily_race_row,
                   (kv.1.1.1 =? discord_id) && (kv.1.2 =? daily_type)
                   && negb (dr_level kv.2 =? -1))
                (map_to_list (daily_races d)))), d).

(** [INSERT INTO daily_races ... ON DUPLICATE KEY UPDATE ...]: every column
    takes the new value. *)
Definition upsert_daily_race (key : Z * Z * Z) (row : daily_race_row) : Cursor () :=
  λ d, (Returned (), with_daily_races (insert key row) d).

(** [UPDATE daily_races SET level=-1 WHERE discord_id=%s AND daily_id=%s AND
    type=%s]. *)
Definition withdraw_daily_race (key : Z * Z * Z) : Cursor () :=
  λ d, (Returned (),
        with_daily_races
          (alter (λ row, {| dr_level := -1; dr_time := dr_time row |}) key) d).

(** *** The cursor after a [SELECT]

    [DBConnect.db_connection.cursor()] is [mysql.connector]'s default
    cursor, which is not buffered: the rows of a result stay with the server
    until they are fetched.  [unread] are the rows not fetched yet, [at_end]
    says that the end of the result has been read, [fetched] counts the rows
    fetched. *)
Record unbuffered (R : Type) : Type := {
  unread : list R;
  at_end : bool;
  fetched : nat
}.
Arguments unread {R} _.
Arguments at_end {R} _.
Arguments fetched {R} _.

(** The cursor right after [cursor.execute] of a [SELECT]. *)
Definition after_select {R} (rows : list R) : unbuffered R :=
  {| unread := rows; at_end := false; fetched := 0 |}.

(** [cursor.rowcount]: -1 as long as no row has been fetched, and then the
    number of rows fetched so far. *)
Definition rowcount {R} (cur : unbuffered R) : Z :=
  match fetched cur with
  | O => -1
  | S _ => Z.of_nat (fetched cur)
  end.

(** [cursor.fetchone()]: the next row, or [None] at the end.  The cursor
    reads one row ahead, so fetching the last row reads the end of the
    result as well. *)
Definition fetchone {R} (cur : unbuffered R) : option R * unbuffered R :=
  match unread cur with
  | [] => (None, {| unread := []; at_end := true; fetched := fetched cur |})
  | row :: rest =>
      (Some row,
       {| unread := rest;
          at_end := match rest with [] => true | _ :: _ => false end;
          fetched := S (fetched cur) |})
  end.

(** [self.cursor.close()] of [__exit__]: on a result that was not read to
    its end it raises [InternalError] ("Unread result found"), which takes
    the place of what the body returned or raised. *)
Definition close_cursor {R A} (r : outcome A) (cur : unbuffered R) : outcome A :=
  if at_end cur then r else Raised InternalError.

(** The body of a scope that executes the [SELECT] [stmt] and reads its
    result with [use], followed by the [cursor.close()] of [__exit__]. *)
Definition fetching {R A} (stmt : Cursor (list R))
    (use : unbuffered R → outcome A * unbuffered R) : Cursor A :=
  λ d, match stmt d with
       | (Returned rows, d') =>
           let '(r, cur) := use (after_select rows) in (close_cursor r cur, d')
       | (Raised e, d') => (Raised e, d')
       end.

Definition has_submitted_daily_sql : string :=
  "SELECT discord_id " +:+
  "FROM daily_races " +:+
  "WHERE discord_id=%s AND daily_id=%s AND type=%s AND level != -1".

Definition has_submitted_daily (discord_id daily_id daily_type : Z)
    : connection → outcome bool * connection :=
  DBConnect false
    (fetching
       (execute has_submitted_daily_sql
          (select_daily_row discord_id daily_id daily_type true))
       (λ cur, (Returned (0 <? rowcount cur), cur))).

Definition has_registered_daily_sql : string :=
  "SELECT discord_id " +:+
  "FROM daily_races " +:+
  "WHERE discord_id=%s AND daily_id=%s AND type=%s".

Definition has_registered_daily (discord_id daily_id daily_type : Z)
    : connection → outcome bool * connection :=
  DBConnect false
    (fetching
       (execute has_registered_daily_sql
          (select_daily_row discord_id daily_id daily_type false))
       (λ cur, (Returned (0 <? rowcount cur), cur))).

Definition register_daily_sql : string :=
  "INSERT INTO daily_races " +:+
  "(discord_id, daily_id, type, level, time) " +:+
  "VALUES (%s,%s,%s,%s,%s) " +:+
  "ON DUPLICATE KEY UPDATE " +:+
  "discord_id=VALUES(discord_id), " +:+
  "daily_id=VALUES(daily_id), " +:+
  "type=VALUES(type), " +:+
  "level=VALUES(level), " +:+
  "time=VALUES(time)".

(** [register_daily(discord_id, daily_id, daily_type, level=-1, time=-1)];
    the caller who leaves [level] and [time] out passes [-1]. *)
Definition register_daily (discord_id daily_id daily_type level time : Z)
    : connection → outcome () * connection :=
  DBConnect true
    (execute register_daily_sql
       (upsert_daily_race (discord_id, daily_id, daily_type)
          {| dr_level := level; dr_time := time |})).

Definition registered_daily_sql : string :=
  "SELECT daily_id " +:+
  "FROM daily_races " +:+
  "WHERE discord_id=%s AND type=%s " +:+
  "ORDER BY daily_id DESC " +:+
  "LIMIT 1".

(** [int(cursor.fetchone()[0]) if cursor.rowcount else 0]; [fetchone()] is
    [None] when the result has no row, and subscripting it raises
    [TypeError]. *)
Definition first_or_0 (cur : unbuffered Z) : outcome Z * unbuffered Z :=
  if rowcount cur =? 0 then (Returned 0, cur)
  else let '(row, cur') := fetchone cur in
       match row with
       | Some row => (Returned row, cur')
       | None => (Raised TypeError, cur')
       end.

Definition registered_daily (discord_id daily_type : Z)
    : connection → outcome Z * connection :=
  DBConnect false
    (fetching
       (execute registered_daily_sql (select_registered_ids discord_id daily_type))
       first_or_0).

(** The third literal has no blank at its end (the sibling
    [registered_daily] has one), so the text reads [... level != -1ORDER BY
    daily_id DESC LIMIT 1]. *)
Definition submitted_daily_sql : string :=
  "SELECT daily_id " +:+
  "FROM daily_races " +:+
  "WHERE discord_id=%s AND type=%s AND level != -1" +:+
  "ORDER BY daily_id DESC " +:+
  "LIMIT 1".

Definition submitted_daily (discord_id daily_type : Z)
    : connection → outcome Z * connection :=
  DBConnect false
    (fetching
       (execute submitted_daily_sql (select_submitted_ids discord_id daily_type))
       first_or_0).

Definition delete_from_daily_sql : string :=
  "UPDATE daily_races " +:+
  "SET level=-1 " +:+
  "WHERE discord_id=%s AND daily_id=%s AND type=%s".

Definition delete_from_daily (discord_id daily_id daily_type : Z)
    : connection → outcome () * connection :=
  DBConnect true
    (execute delete_from_daily_sql
       (withdraw_daily_race (discord_id, daily_id, daily_type))).

(** What the specification says [latest_submitted] returns: the largest
    [daily_id] among the user's rows of that type with [level != -1], and 0
    when there is none. *)
Definition latest_submitted (d : db) (discord_id daily_type : Z) : Z :=
  match
    (λ kv : Z * Z * Z * daily_race_row, kv.1.1.2) <$>
    List.filter
      (λ kv : Z * Z * Z * daily_race_row,
         (kv.1.1.1 =? discord_id) && (kv.1.2 =? daily_type)
         && negb (dr_level kv.2 =? -1))
      (map_to_list (daily_races d))
  with
  | [] => 0
  | daily_id :: rest => foldr Z.max daily_id rest
  end.

(** ** Leaderboard *)

Definition get_fastest_times_leaderboard_sql (amplified : bool) : string :=
  "SELECT user_data.name, racer_data.time, race_data.seed, race_data.timestamp " +:+
  "FROM racer_data " +:+
  "INNER JOIN " +:+
  "( " +:+
  "    SELECT discord_id, MIN(time) AS min_time " +:+
  "    FROM racer_data INNER JOIN race_data ON race_data.race_id = racer_data.race_id " +:+
  "    WHERE " +:+
  "        time > 0 " +:+
  "        AND level = -2 " +:+
  "        AND race_data.character_name=%s " +:+
  "        AND race_data.descriptor='All-zones' " +:+
  "        AND race_data.seeded " +:+
  ("        AND " +:+ (if amplified then "" else "NOT ") +:+ "race_data.amplified ") +:+
  "        AND NOT race_data.private " +:+
  "    Group By discord_id " +:+
  ") rd1 On rd1.discord_id = racer_data.discord_id " +:+
  "INNER JOIN user_data ON user_data.discord_id = racer_data.discord_id " +:+
  "INNER JOIN race_data ON race_data.race_id = racer_data.race_id " +:+
  "WHERE racer_data.time = rd1.min_time " +:+
  "ORDER BY racer_data.time ASC " +:+
  "LIMIT %s".

(** The [WHERE] of the inner [SELECT], on a row of [racer_data INNER JOIN
    race_data ON race_data.race_id = racer_data.race_id].  Two texts are
    taken as equal when they are the same string. *)
Definition qualifying (d : db) (character_name : string) (amplified : bool)
    (kv : Z * Z * racer_row) : bool :=
  match race_data d !! kv.1.1 with
  | Some rc =>
      (0 <? rr_time kv.2) && (rr_level kv.2 =? -2)
      && String.eqb (rc_character_name rc) character_name
      && String.eqb (rc_descriptor rc) "All-zones"
      && rc_seeded rc
      && (if amplified then rc_amplified rc else negb (rc_amplified rc))
      && negb (rc_private rc)
  | None => false
  end.

(** The derived table [rd1]: [SELECT discord_id, MIN(time) AS min_time ...
    Group By discord_id], as the map from [discord_id] to [min_time]. *)
Definition rd1 (d : db) (character_name : string) (amplified : bool) : gmap Z Z :=
  foldr (λ kv m,
           if qualifying d character_name amplified kv
           then <[kv.1.2 := match m !! kv.1.2 with
                            | Some t => Z.min (rr_time kv.2) t
                            | None => rr_time kv.2
                            end]> m
           else m)
        ∅ (map_to_list (racer_data d)).

(** A row of the result: [(user_data.name, racer_data.time, race_data.seed,
    race_data.timestamp)]. *)
Definition leaderboard_row : Type := option string * Z * Z * string.

(** The outer [SELECT] before [ORDER BY] and [LIMIT]: the rows of
    [racer_data] joined with [rd1], [user_data] and [race_data] that pass
    [WHERE racer_data.time = rd1.min_time]. *)
Definition joined_rows (d : db) (character_name : string) (amplified : bool)
    : list leaderboard_row :=
  omap (λ kv : Z * Z * racer_row,
          match rd1 d character_name amplified !! kv.1.2,
                user_data d !! kv.1.2,
                race_data d !! kv.1.1 with
          | Some min_time, Some u, Some rc =>
              if rr_time kv.2 =? min_time
              then Some (u_name u, rr_time kv.2, rc_seed rc, rc_timestamp rc)
              else None
          | _, _, _ => None
          end)
       (map_to_list (racer_data d)).

Definition select_fastest_times (character_name : string) (amplified : bool)
    (limit : nat) : Cursor (list leaderboard_row) :=
  λ d, (Returned
          (take limit
             (sort_by_key (λ row : leaderboard_row, row.1.1.2)
                (joined_rows d character_name amplified))), d).

(** [cursor.fetchall()] of the statement. *)
Definition get_fastest_times_leaderboard (character_name : string)
    (amplified : bool) (limit : nat)
    : connection → outcome (list leaderboard_row) * connection :=
  DBConnect false
    (execute (get_fastest_times_leaderboard_sql amplified)
       (select_fastest_times character_name amplified limit)).

(** ** Rating store *)

(** Modelled from the spec: [Rating] and [create_rating] of
    [necrobot.ladder.rating], which is not under src/; the specification's
    opaque [Rating{mu, sigma}] built by [create_rating(mu, sigma)]. *)
Record Rating : Type := create_rating {
  mu : Q;
  sigma : Q
}.

(** Python's [int(x)] on a number: the fractional part is dropped, towards
    zero. *)
Definition py_int (x : Q) : Z := Z.quot (Qnum x) (Z.pos (Qden x)).

(** Rounding to the nearest integer, half away from zero: what MySQL keeps
    of a number written to an integer column. *)
Definition round_half_away (x : Q) : Z :=
  Z.sgn (Qnum x) * ((2 * Z.abs (Qnum x) + Z.pos (Qden x)) / (2 * Z.pos (Qden x))).

Definition upsert_ladder (discord_id : Z) (row : ladder_row) : Cursor () :=
  λ d, (Returned (), with_ladder_data (insert discord_id row) d).

Definition select_ladder (discord_id : Z) : Cursor (option ladder_row) :=
  λ d, (Returned (ladder_data d !! discord_id), d).

Section Ladder.

(** What the columns keep of a number written to them.  It depends on the
    columns' types, which are part of the schema and not under src/:
    [id_column_store] for the key column [discord_id], [column_store] for
    [trueskill_mu] and [trueskill_sigma]. *)
Variable id_column_store : Q → Z.
Variable column_store : Q → Q.

Definition set_rating_sql : string :=
  "INSERT INTO ladder_data " +:+
  "(discord_id, trueskill_mu, trueskill_sigma) " +:+
  "VALUES (%s,%s,%s) " +:+
  "ON DUPLICATE KEY UPDATE " +:+
  "trueskill_mu=VALUES(trueskill_mu), " +:+
  "trueskill_sigma=VALUES(trueskill_sigma)".

(** [params = (rating.mu, rating.sigma, discord_id,)] fills the three [%s] of
    [(discord_id, trueskill_mu, trueskill_sigma) VALUES (%s,%s,%s)] in that
    order: the column [discord_id] takes [rating.mu], [trueskill_mu] takes
    [rating.sigma] and [trueskill_sigma] takes [discord_id]. *)
Definition set_rating (discord_id : Z) (rating : Rating)
    : connection → outcome () * connection :=
  DBConnect true
    (execute set_rating_sql
       (upsert_ladder (id_column_store (mu rating))
          {| trueskill_mu := column_store (sigma rating);
             trueskill_sigma := column_store (inject_Z discord_id) |})).

Definition get_rating_sql : string :=
  "SELECT trueskill_mu, trueskill_sigma " +:+
  "FROM ladder_data " +:+
  "WHERE discord_id=%s".

(** [create_rating(mu=int(row[0]), sigma=int(row[1])) if row is not None
    else None]. *)
Definition get_rating (discord_id : Z)
    : connection → outcome (option Rating) * connection :=
  DBConnect false
    (let* row := execute get_rating_sql (select_ladder discord_id) in
     ret match row with
         | Some row =>
             Some (create_rating (inject_Z (py_int (trueskill_mu row)))
                                 (inject_Z (py_int (trueskill_sigma row))))
         | None => None
         end).

End Ladder.

(** ** Reading a row column by column *)

Inductive column : Type :=
  | Name | TwitchName | RtmpName | Timezone | UserInfo | DailyAlert | RaceAlert.

Inductive cell : Type :=
  | Text (v : option string)
  | Flag (b : bool).

Definition column_value (col : column) (u : user_row) : cell :=
  match col with
  | Name => Text (u_name u)
  | TwitchName => Text (u_twitch_name u)
  | RtmpName => Text (u_rtmp_name u)
  | Timezone => Text (u_timezone u)
  | UserInfo => Text (u_user_info u)
  | DailyAlert => Flag (u_daily_alert u)
  | RaceAlert => Flag (u_race_alert u)
  end.

(** [u'] is [u] with [v] written to the column [col] and nothing else
    changed. *)
Definition only_column_changed (col : column) (v : option string)
    (u u' : user_row) : Prop :=
  column_value col u' = Text v ∧
  ∀ col', col' ≠ col → column_value col' u' = column_value col' u.

(** What a profile setter [op] does to the connection [c]: it returns, it
    commits, it touches no other table and no other row, it creates no row,
    and it writes [v] to the column [col] of the row of [discord_id] when
    there is one. *)
Definition column_setter (op : connection → outcome () * connection)
    (discord_id : Z) (col : column) (v : option string) (c : connection) : Prop :=
  (op c).1 = Returned () ∧
  committed (op c).2 = session (op c).2 ∧
  race_data (session (op c).2) = race_data (session c) ∧
  racer_data (session (op c).2) = racer_data (session c) ∧
  daily_races (session (op c).2) = daily_races (session c) ∧
  ladder_data (session (op c).2) = ladder_data (session c) ∧
  (∀ j, j ≠ discord_id →
     user_data (session (op c).2) !! j = user_data (session c) !! j) ∧
  match user_data (session c) !! discord_id with
  | None => session (op c).2 = session c
  | Some u =>
      ∃ u', user_data (session (op c).2) !! discord_id = Some u' ∧
            only_column_changed col v u u'
  end.

(** ** Sample data *)

Definition null_user : user_row :=
  {| u_name := None; u_twitch_name := None; u_rtmp_name := None;
     u_timezone := None; u_user_info := None;
     u_daily_alert := false; u_race_alert := false |}.

Definition sample_user : user_row :=
  {| u_name := Some "incnone"; u_twitch_name := Some "incnone_tv";
     u_rtmp_name := None; u_timezone := Some "UTC"; u_user_info := None;
     u_daily_alert := true; u_race_alert := false |}.

Definition sample_db : db :=
  with_user_data (insert 7 sample_user) empty_db.

(** ** Tables read as lists of rows *)

(** The rows of a table under one key. *)
Definition rows_of_key {V} (k : Z) (m : gmap Z V) : list (Z * V) :=
  List.filter (λ kv : Z * V, kv.1 =? k) (map_to_list m).

(** ** Stores and races used as examples *)

(** User 1 registered for daily 6 of type 0 and submitted daily 5 (level 3)
    and daily 2 (level 1). *)
Definition daily_db : db :=
  with_daily_races
    (λ m, <[(1, 6, 0) := {| dr_level := -1; dr_time := -1 |}]>
           (<[(1, 5, 0) := {| dr_level := 3; dr_time := 4200 |}]>
             (<[(1, 2, 0) := {| dr_level := 1; dr_time := 900 |}]> m)))
    empty_db.

(** ** Order by key *)

Definition key_le {A} (key : A → Z) (a b : A) : Prop := key a ≤ key b.

(** ** Race recorder: ids and ranks *)

(** The id [record_race] gives the race it records on the tables [d]. *)
Definition next_race_id (d : db) : Z :=
  new_raceid_of (order_by_desc_limit_1 (map_to_list (race_data d)).*1).

Definition finishers (l : list Racer) : list Racer := List.filter is_finished l.

(** The finishers of [l] with a time below that of [r]. *)
Definition faster_finishers (r : Racer) (l : list Racer) : list Racer :=
  List.filter (λ x, is_finished x && (racer_time x <? racer_time r)) l.

(** The rank [record_race] stores for the racer [r] of a race whose racers
    are [l]: a finisher's place in ascending time order, and one more than
    the number of finishers for a racer who did not finish. *)
Definition stored_rank (l : list Racer) (r : Racer) : Z :=
  if is_finished r then 1 + Z.of_nat (length (faster_finishers r l))
  else 1 + Z.of_nat (length (finishers l)).

(** Every [racer_data] row belongs to a race of [race_data]. *)
Definition results_have_race (d : db) : Prop :=
  ∀ race_id discord_id,
    is_Some (racer_data d !! (race_id, discord_id)) →
    is_Some (race_data d !! race_id).

(** Every [racer_data] row belongs to a user of [user_data]. *)
Definition results_have_user (d : db) : Prop :=
  ∀ race_id discord_id,
    is_Some (racer_data d !! (race_id, discord_id)) →
    is_Some (user_data d !! discord_id).

(** The tables after one full round of the loop for [racer]. *)
Definition after_racer (default_user : user_row) (new_raceid rank : Z)
    (racer : Racer) (d : db) : db :=
  with_user_data
    (λ m, <[racer_id racer :=
              set_u_name (Some (racer_name racer))
                (default default_user (m !! racer_id racer))]> m)
    (with_racer_data
       (insert (new_raceid, racer_id racer) (racer_params racer rank)) d).

Definition mk_racer (discord_id : Z) (name : string) (time : Z)
    (finished : bool) : Racer :=
  {| racer_id := discord_id; racer_name := name; racer_time := time;
     is_finished := finished; racer_igt := time; racer_comment := "";
     racer_level := -2 |}.

Definition cadence_race (seed : Z) (seeded private_race : bool)
    (racers : list Racer) : Race :=
  {| start_datetime := "2017-03-01 20:00:00";
     race_info := {| character_str := "Cadence"; descriptor := "All-zones";
                     flags := 0; seed := seed; seeded := seeded;
                     amplified := false; condor_race := false;
                     private_race := private_race |};
     racers := racers |}.

(** Three finishers with times 10, 20 and 30 and one racer who did not
    finish, handed over in no particular order. *)
Definition podium_race : Race :=
  cadence_race 11 true false
    [mk_racer 4 "dnf" 0 false; mk_racer 3 "third" 30 true;
     mk_racer 1 "first" 10 true; mk_racer 2 "second" 20 true].

(** A race in which the racer 7 stands twice. *)
Definition clone_race : Race :=
  cadence_race 11 true false
    [mk_racer 7 "seven" 10 true; mk_racer 7 "seven" 20 true].

(** A caller recording [races] one after the other, going on after a call
    that raised: the ids the calls gave their races, and the connection at
    the end. *)
Fixpoint record_races (default_user : user_row) (races : list Race)
    (c : connection) : list Z * connection :=
  match races with
  | [] => ([], c)
  | race :: rest =>
      let new_raceid := next_race_id (session c) in
      let '(ids, c') :=
        record_races default_user rest (record_race default_user race c).2 in
      (new_raceid :: ids, c')
  end.

(** User 1 ran Cadence All-zones in 100 three times: in a seeded public
    race (seed 11), in a private race (seed 22) and in an unseeded race
    (seed 33).  The store is the one the three [record_race] calls leave. *)
Definition tied_times : connection :=
  (record_races null_user
     [cadence_race 11 true false [mk_racer 1 "alice" 100 true];
      cadence_race 22 true true [mk_racer 1 "alice" 100 true];
      cadence_race 33 false false [mk_racer 1 "alice" 100 true]]
     (fresh_connection empty_db)).2.

(** ** User registry: lookups, preferences, bulk registration *)

(** Python's [s[n:]]. *)
Definition string_drop (n : nat) (s : string) : string :=
  string_of_list_ascii (drop n (list_ascii_of_string s)).

(** [if x is not None: where_query += clause]. *)
Definition add_clause {A} (x : option A) (clause : string) (where_query : string)
    : string :=
  match x with
  | Some _ => where_query +:+ clause
  | None => where_query
  end.

(** The [where_query] of [get_all_users]: ['TRUE'] when no filter is given,
    and otherwise the clauses of the given filters, each led by [' AND '],
    with the first five characters cut off. *)
Definition get_all_users_where (discord_id : option Z)
    (discord_name twitch_name rtmp_name : option string) : string :=
  match discord_id, discord_name, twitch_name, rtmp_name with
  | None, None, None, None => "TRUE"
  | _, _, _, _ =>
      let where_query := "" in
      let where_query := add_clause discord_id " AND discord_id=%s" where_query in
      let where_query := add_clause discord_name " AND name=%s" where_query in
      let where_query := add_clause twitch_name " AND twitch_name=%s" where_query in
      let where_query := add_clause rtmp_name " AND rtmp_name=%s" where_query in
      string_drop 5 where_query
  end.

Definition get_all_users_sql (discord_id : option Z)
    (discord_name twitch_name rtmp_name : option string) : string :=
  "SELECT discord_id, name, twitch_name, rtmp_name, timezone, user_info, daily_alert, race_alert " +:+
  "FROM user_data " +:+
  "WHERE " +:+ get_all_users_where discord_id discord_name twitch_name rtmp_name.

(** [col=%s] on a text column: a NULL equals nothing. *)
Definition text_is (v : option string) (filter : option string) : bool :=
  match filter with
  | Some x => bool_decide (v = Some x)
  | None => true
  end.

(** The [WHERE] of [get_all_users] on a row: every filter that is given
    holds. *)
Definition user_matches (discord_id : option Z)
    (discord_name twitch_name rtmp_name : option string)
    (kv : Z * user_row) : bool :=
  match discord_id with Some i => kv.1 =? i | None => true end
  && text_is (u_name kv.2) discord_name
  && text_is (u_twitch_name kv.2) twitch_name
  && text_is (u_rtmp_name kv.2) rtmp_name.

Definition select_users (discord_id : option Z)
    (discord_name twitch_name rtmp_name : option string)
    : Cursor (list (Z * user_row)) :=
  λ d, (Returned
          (List.filter (user_matches discord_id discord_name twitch_name rtmp_name)
             (map_to_list (user_data d))), d).

(** [cursor.fetchall()] of the statement: a row is the key [discord_id] and
    the seven other columns. *)
Definition get_all_users (discord_id : option Z)
    (discord_name twitch_name rtmp_name : option string)
    : connection → outcome (list (Z * user_row)) * connection :=
  DBConnect false
    (execute (get_all_users_sql discord_id discord_name twitch_name rtmp_name)
       (select_users discord_id discord_name twitch_name rtmp_name)).

Definition get_discord_id_sql : string :=
  "SELECT discord_id " +:+
  "FROM user_data " +:+
  "WHERE name=%s".

Definition select_discord_ids (discord_name : string) : Cursor (list Z) :=
  λ d, (Returned
          ((List.filter (λ kv : Z * user_row, text_is (u_name kv.2) (Some discord_name))
              (map_to_list (user_data d))).*1), d).

(** [int(cursor.fetchone()[0]) if cursor.rowcount else None]. *)
Definition first_or_None (cur : unbuffered Z)
    : outcome (option Z) * unbuffered Z :=
  if rowcount cur =? 0 then (Returned None, cur)
  else let '(row, cur') := fetchone cur in
       match row with
       | Some row => (Returned (Some row), cur')
       | None => (Raised TypeError, cur')
       end.

Definition get_discord_id (discord_name : string)
    : connection → outcome (option Z) * connection :=
  DBConnect false
    (fetching
       (execute get_discord_id_sql (select_discord_ids discord_name))
       first_or_None).

Definition set_u_alerts (daily race : bool) (u : user_row) : user_row :=
  {| u_name := u_name u; u_twitch_name := u_twitch_name u;
     u_rtmp_name := u_rtmp_name u; u_timezone := u_timezone u;
     u_user_info := u_user_info u; u_daily_alert := daily;
     u_race_alert := race |}.

Definition set_prefs_sql : string :=
  "INSERT INTO user_data " +:+
  "(discord_id, daily_alert, race_alert) " +:+
  "VALUES (%s,%s,%s) " +:+
  "ON DUPLICATE KEY UPDATE " +:+
  "daily_alert=VALUES(daily_alert), " +:+
  "race_alert=VALUES(race_alert)".

Definition register_all_users_sql : string :=
  "INSERT INTO user_data " +:+
  "(discord_id, name) " +:+
  "VALUES (%s,%s) " +:+
  "ON DUPLICATE KEY UPDATE " +:+
  "name=VALUES(name)".

Section Preferences.

Variable default_user : user_row.

(** [UserPrefs.merge_prefs] of [necrobot.user.userprefs], which is not under
    src/: [stored.merge_prefs(given)] is the record [set_prefs] writes. *)
Variable merge_prefs : UserPrefs → UserPrefs → UserPrefs.

(** What a flag column keeps of a parameter; [None] is written as NULL. *)
Variable flag_column : option bool → bool.

(** [INSERT INTO user_data (discord_id, daily_alert, race_alert) VALUES
    (%s,%s,%s) ON DUPLICATE KEY UPDATE daily_alert=VALUES(daily_alert),
    race_alert=VALUES(race_alert)]. *)
Definition upsert_user_prefs (discord_id : Z) (prefs : UserPrefs) : Cursor () :=
  λ d, (Returned (),
        with_user_data
          (λ m, <[discord_id :=
                    set_u_alerts (flag_column (daily_alert prefs))
                      (flag_column (race_alert prefs))
                      (default default_user (m !! discord_id))]> m)
          d).

(** [new_user_prefs = get_prefs(discord_id=discord_id).merge_prefs(user_prefs)]
    runs in a scope of its own, before the scope of the [INSERT]; what
    [get_prefs] raises goes to the caller. *)
Definition set_prefs (discord_id : Z) (user_prefs : UserPrefs)
    (c : connection) : outcome () * connection :=
  match get_prefs discord_id c with
  | (Raised e, c') => (Raised e, c')
  | (Returned stored, c') =>
      let new_user_prefs := merge_prefs stored user_prefs in
      DBConnect true
        (execute set_prefs_sql (upsert_user_prefs discord_id new_user_prefs)) c'
  end.

(** The loop [for member in members] of [register_all_users]. *)
Fixpoint register_members (members : list Member) : Cursor () :=
  match members with
  | [] => ret ()
  | member :: rest =>
      run execute register_all_users_sql
            (upsert_user_name default_user (member_id member)
               (member_display_name member)) in
      register_members rest
  end.

Definition register_all_users (members : list Member)
    : connection → outcome () * connection :=
  DBConnect true (register_members members).

End Preferences.

(** The display name of the last of [members] whose id is [discord_id]. *)
Definition last_display_name (discord_id : Z) (members : list Member)
    : option string :=
  last (member_display_name <$>
        List.filter (λ m, member_id m =? discord_id) members).

(** Modelled from the spec: [UserPrefs.is_empty] of
    [necrobot.user.userprefs], which is not under src/; a record that
    specifies nothing. *)
Definition is_empty (user_prefs : UserPrefs) : bool :=
  match daily_alert user_prefs, race_alert user_prefs with
  | None, None => true
  | _, _ => false
  end.

(** [' AND daily_alert={0}'.format('TRUE' if user_prefs.daily_alert else
    'FALSE')] when the field is not [None]. *)
Definition add_flag_clause (x : option bool) (column : string)
    (where_query : string) : string :=
  match x with
  | Some b => where_query +:+ " AND " +:+ column +:+ "="
              +:+ (if b then "TRUE" else "FALSE")
  | None => where_query
  end.

Definition get_all_ids_matching_prefs_sql (user_prefs : UserPrefs) : string :=
  let where_query := "" in
  let where_query :=
    add_flag_clause (daily_alert user_prefs) "daily_alert" where_query in
  let where_query :=
    add_flag_clause (race_alert user_prefs) "race_alert" where_query in
  let where_query := string_drop 5 where_query in
  "SELECT discord_id " +:+
  "FROM user_data " +:+
  "WHERE " +:+ where_query.

Definition flag_is (v : bool) (filter : option bool) : bool :=
  match filter with
  | Some b => bool_decide (v = b)
  | None => true
  end.

Definition select_ids_matching_prefs (user_prefs : UserPrefs) : Cursor (list Z) :=
  λ d, (Returned
          ((List.filter
              (λ kv : Z * user_row,
                 flag_is (u_daily_alert kv.2) (daily_alert user_prefs)
                 && flag_is (u_race_alert kv.2) (race_alert user_prefs))
              (map_to_list (user_data d))).*1), d).

(** [if user_prefs.is_empty: return []] comes before the scope is
    opened. *)
Definition get_all_ids_matching_prefs (user_prefs : UserPrefs)
    (c : connection) : outcome (list Z) * connection :=
  if is_empty user_prefs then (Returned [], c)
  else DBConnect false
         (execute (get_all_ids_matching_prefs_sql user_prefs)
            (select_ids_matching_prefs user_prefs)) c.

(** ** Race index of a user *)

Definition get_largest_race_number_sql : string :=
  "SELECT race_id " +:+
  "FROM racer_data " +:+
  "WHERE discord_id = %s " +:+
  "ORDER BY race_id DESC " +:+
  "LIMIT 1".

Definition select_race_ids_of (discord_id : Z) : Cursor (list Z) :=
  λ d, (Returned
          (order_by_desc_limit_1
             ((λ kv : Z * Z * racer_row, kv.1.1) <$>
              List.filter (λ kv : Z * Z * racer_row, kv.1.2 =? discord_id)
                (map_to_list (racer_data d)))), d).

Definition get_largest_race_number (discord_id : Z)
    : connection → outcome Z * connection :=
  DBConnect false
    (fetching
       (execute get_largest_race_number_sql (select_race_ids_of discord_id))
       first_or_0).

(** ** The daily definitions: [daily_data] *)

(** [daily_data(daily_id, type, seed, msg_id)], key [(daily_id, type)]. *)
Record daily_row : Type := {
  dd_seed : Z;
  dd_msg_id : Z
}.

(** The four functions on [daily_data] read and write no other table.  They
    are modelled on the connection as they see it: the committed
    [daily_data] table and the session's. *)
Record daily_connection : Type := {
  dd_committed : gmap (Z * Z) daily_row;
  dd_session : gmap (Z * Z) daily_row
}.

Definition DailyCursor (A : Type) : Type :=
  gmap (Z * Z) daily_row → outcome A * gmap (Z * Z) daily_row.

(** [cursor.execute] and [DBConnect] on that view. *)
Definition execute_daily {A} (text : string) (stmt : DailyCursor A) : DailyCursor A :=
  if accepted text then stmt else λ t, (Raised ProgrammingError, t).

Definition DBConnect_daily {A} (commit : bool) (body : DailyCursor A)
    (c : daily_connection) : outcome A * daily_connection :=
  let '(r, s) := body (dd_session c) in
  (r, {| dd_committed := if commit then s else dd_committed c;
         dd_session := s |}).

Definition create_daily_sql : string :=
  "INSERT INTO daily_data " +:+
  "(daily_id, type, seed, msg_id) " +:+
  "VALUES (%s,%s,%s,%s)".

(** An [INSERT] without [ON DUPLICATE KEY UPDATE]. *)
Definition insert_daily_data (key : Z * Z) (row : daily_row) : DailyCursor () :=
  λ t, match t !! key with
       | Some _ => (Raised IntegrityError, t)
       | None => (Returned (), <[key := row]> t)
       end.

(** [create_daily(daily_id, daily_type, seed, message_id=0)]; the caller who
    leaves [message_id] out passes 0. *)
Definition create_daily (daily_id daily_type seed message_id : Z)
    : daily_connection → outcome () * daily_connection :=
  DBConnect_daily true
    (execute_daily create_daily_sql
       (insert_daily_data (daily_id, daily_type)
          {| dd_seed := seed; dd_msg_id := message_id |})).

Definition register_daily_message_sql : string :=
  "UPDATE daily_data " +:+
  "SET msg_id=%s " +:+
  "WHERE daily_id=%s AND type=%s".

Definition update_daily_message (key : Z * Z) (message_id : Z) : DailyCursor () :=
  λ t, (Returned (),
        alter (λ row, {| dd_seed := dd_seed row; dd_msg_id := message_id |}) key t).

Definition register_daily_message (daily_id daily_type message_id : Z)
    : daily_connection → outcome () * daily_connection :=
  DBConnect_daily true
    (execute_daily register_daily_message_sql
       (update_daily_message (daily_id, daily_type) message_id)).

Definition get_daily_message_id_sql : string :=
  "SELECT msg_id " +:+
  "FROM daily_data " +:+
  "WHERE daily_id=%s AND type=%s".

Definition select_daily_column (column : daily_row → Z) (key : Z * Z)
    : DailyCursor (list Z) :=
  λ t, (Returned match t !! key with
                 | Some row => [column row]
                 | None => []
                 end, t).

(** [fetching] on the view of [daily_data]. *)
Definition fetching_daily {R A} (stmt : DailyCursor (list R))
    (use : unbuffered R → outcome A * unbuffered R) : DailyCursor A :=
  λ t, match stmt t with
       | (Returned rows, t') =>
           let '(r, cur) := use (after_select rows) in (close_cursor r cur, t')
       | (Raised e, t') => (Raised e, t')
       end.

(** [int(cursor.fetchone()[0]) if cursor.rowcount else 0]. *)
Definition get_daily_message_id (daily_id daily_type : Z)
    : daily_connection → outcome Z * daily_connection :=
  DBConnect_daily false
    (fetching_daily
       (execute_daily get_daily_message_id_sql
          (select_daily_column dd_msg_id (daily_id, daily_type)))
       first_or_0).

Definition get_daily_seed_sql : string :=
  "SELECT seed " +:+
  "FROM daily_data " +:+
  "WHERE daily_id=%s AND type=%s".

(** [cursor.fetchall()]: the rows, each a seed. *)
Definition get_daily_seed (daily_id daily_type : Z)
    : daily_connection → outcome (list Z) * daily_connection :=
  DBConnect_daily false
    (execute_daily get_daily_seed_sql
       (select_daily_column dd_seed (daily_id, daily_type))).

(** ** Times of a daily *)

Definition get_daily_times_sql : string :=
  "SELECT user_data.name,daily_races.level,daily_races.time " +:+
  "FROM daily_races INNER JOIN user_data ON daily_races.discord_id=user_data.discord_id " +:+
  "WHERE daily_races.daily_id=%s AND daily_races.type=%s " +:+
  "ORDER BY daily_races.level DESC, daily_races.time ASC".

(** A row of the result: [(user_data.name, daily_races.level,
    daily_races.time)]. *)
Definition daily_time_row : Type := option string * Z * Z.

(** The rows of [daily_races INNER JOIN user_data] of the daily, before
    [ORDER BY]. *)
Definition daily_times_rows (d : db) (daily_id daily_type : Z)
    : list daily_time_row :=
  omap (λ kv : Z * Z * Z * daily_race_row,
          if (kv.1.1.2 =? daily_id) && (kv.1.2 =? daily_type)
          then match user_data d !! kv.1.1.1 with
               | Some u => Some (u_name u, dr_level kv.2, dr_time kv.2)
               | None => None
               end
          else None)
       (map_to_list (daily_races d)).

(** [ORDER BY level DESC, time ASC]: by time, and then, keeping the order of
    the rows of one level, by level from the highest down. *)
Definition select_daily_times (daily_id daily_type : Z)
    : Cursor (list daily_time_row) :=
  λ d, (Returned
          (sort_by_key (λ row : daily_time_row, - row.1.2)
             (sort_by_key (λ row : daily_time_row, row.2)
                (daily_times_rows d daily_id daily_type))), d).

Definition get_daily_times (daily_id daily_type : Z)
    : connection → outcome (list daily_time_row) * connection :=
  DBConnect false
    (execute get_daily_times_sql (select_daily_times daily_id daily_type)).

(** [a] stands before [b] under [ORDER BY level DESC, time ASC]. *)
Definition daily_time_le (a b : daily_time_row) : Prop :=
  a.1.2 > b.1.2 ∨ (a.1.2 = b.1.2 ∧ a.2 ≤ b.2).

(** ** Race statistics of a user *)

(** [GROUP BY key] with [COUNT( * )]: the groups in the order their first row
    is met, each with the number of its rows. *)
Fixpoint count_row {K} `{EqDecision K} (k : K) (groups : list (K * nat))
    : list (K * nat) :=
  match groups with
  | [] => [(k, 1%nat)]
  | (k', n) :: rest =>
      if decide (k' = k) then (k', S n) :: rest
      else (k', n) :: count_row k rest
  end.

Definition group_count {A K} `{EqDecision K} (key : A → K) (rows : list A)
    : list (K * nat) :=
  foldl (λ groups row, count_row (key row) groups) [] rows.

(** The [WHERE] the two statements share, on a row of [racer_data JOIN
    race_data]: the user's results in seeded public All-zones races of the
    asked variant. *)
Definition allzones_result (d : db) (discord_id : Z) (amplified : bool)
    (kv : Z * Z * racer_row) : bool :=
  match race_data d !! kv.1.1 with
  | Some rc =>
      (kv.1.2 =? discord_id)
      && String.eqb (rc_descriptor rc) "All-zones"
      && (if amplified then rc_amplified rc else negb (rc_amplified rc))
      && rc_seeded rc
      && negb (rc_private rc)
  | None => false
  end.

(** The race a result row joins to; the rows that pass [allzones_result]
    have one. *)
Definition race_of (d : db) (kv : Z * Z * racer_row) : option race_row :=
  race_data d !! kv.1.1.

Definition get_allzones_race_numbers_sql (amplified : bool) : string :=
  "SELECT race_data.character_name, COUNT(*) as num " +:+
  "FROM racer_data " +:+
  "JOIN race_data ON race_data.race_id = racer_data.race_id " +:+
  "WHERE racer_data.discord_id = %s " +:+
  "AND race_data.descriptor = 'All-zones' " +:+
  (if amplified then "AND race_data.amplified " else "AND NOT race_data.amplified ") +:+
  "AND race_data.seeded AND NOT race_data.private " +:+
  "GROUP BY race_data.character_name, race_data.descriptor, race_data.flags " +:+
  "ORDER BY num DESC".

(** The key of [GROUP BY race_data.character_name, race_data.descriptor,
    race_data.flags]. *)
Definition race_group (rc : race_row) : string * string * Z :=
  (rc_character_name rc, rc_descriptor rc, rc_flags rc).

(** The rows [(character_name, num)], by [num] from the highest down. *)
Definition select_allzones_race_numbers (discord_id : Z) (amplified : bool)
    : Cursor (list (string * nat)) :=
  λ d, (Returned
          (sort_by_key (λ row : string * nat, - Z.of_nat row.2)
             ((λ g : string * string * Z * nat, (g.1.1.1, g.2)) <$>
              group_count race_group
                (omap (race_of d)
                   (List.filter (allzones_result d discord_id amplified)
                      (map_to_list (racer_data d)))))), d).

Definition get_allzones_race_numbers (discord_id : Z) (amplified : bool)
    : connection → outcome (list (string * nat)) * connection :=
  DBConnect false
    (execute (get_allzones_race_numbers_sql amplified)
       (select_allzones_race_numbers discord_id amplified)).

Definition get_all_racedata_sql (amplified : bool) : string :=
  "SELECT racer_data.time, racer_data.level " +:+
  "FROM racer_data " +:+
  "JOIN race_data ON race_data.race_id = racer_data.race_id " +:+
  "WHERE racer_data.discord_id = %s " +:+
  "AND race_data.character_name = %s " +:+
  "AND race_data.descriptor = 'All-zones' " +:+
  (if amplified then "AND race_data.amplified " else "AND NOT race_data.amplified ") +:+
  "AND race_data.seeded AND NOT race_data.private ".

(** [AND race_data.character_name = %s] on a row that joins to a race. *)
Definition of_character (d : db) (char_name : string)
    (kv : Z * Z * racer_row) : bool :=
  match race_of d kv with
  | Some rc => String.eqb (rc_character_name rc) char_name
  | None => false
  end.

(** The rows [(time, level)]. *)
Definition select_all_racedata (discord_id : Z) (char_name : string)
    (amplified : bool) : Cursor (list (Z * Z)) :=
  λ d, (Returned
          ((λ kv : Z * Z * racer_row, (rr_time kv.2, rr_level kv.2)) <$>
           List.filter
             (λ kv, allzones_result d discord_id amplified kv
                    && of_character d char_name kv)
             (map_to_list (racer_data d))), d).

Definition get_all_racedata (discord_id : Z) (char_name : string)
    (amplified : bool) : connection → outcome (list (Z * Z)) * connection :=
  DBConnect false
    (execute (get_all_racedata_sql amplified)
       (select_all_racedata discord_id char_name amplified)).

(** The sum of the counts of the rows of [character_name]. *)
Definition races_counted (char_name : string) (rows : list (string * nat)) : nat :=
  sum_list_with (λ row : string * nat, row.2)
    (List.filter (λ row : string * nat, String.eqb row.1 char_name) rows).

(** [a] stands before [b] by [k2], and by [k1] among equal [k2]. *)
Definition lex_le {A} (k1 k2 : A → Z) (a b : A) : Prop :=
  k2 a < k2 b ∨ (k2 a = k2 b ∧ k1 a ≤ k1 b).

(** The counts of the groups whose key passes [P], added up. *)
Definition counted {K} (P : K → bool) (groups : list (K * nat)) : nat :=
  sum_list_with (λ g : K * nat, g.2) (List.filter (λ g : K * nat, P g.1) groups).

(** The tables of [tied_times]. *)
Definition tied_store : db := session tied_times.

(** ** Most races *)

Definition get_most_races_leaderboard_sql : string :=
  "SELECT " +:+
  "    user_name, " +:+
  "    num_predlc + num_postdlc as total, " +:+
  "    num_predlc, " +:+
  "    num_postdlc " +:+
  "FROM " +:+
  "( " +:+
  "    SELECT " +:+
  "        user_data.name as user_name, " +:+
  "        SUM( " +:+
  "                IF( " +:+
  "                race_data.character_name=%s " +:+
  "                AND race_data.descriptor='All-zones' " +:+
  "                AND NOT race_data.amplified " +:+
  "                AND NOT race_data.private, " +:+
  "                1, 0 " +:+
  "                ) " +:+
  "        ) as num_predlc, " +:+
  "        SUM( " +:+
  "                IF( " +:+
  "                race_data.character_name=%s " +:+
  "                AND race_data.descriptor='All-zones' " +:+
  "                AND race_data.amplified " +:+
  "                AND NOT race_data.private, " +:+
  "                1, 0 " +:+
  "                ) " +:+
  "        ) as num_postdlc " +:+
  "    FROM racer_data " +:+
  "    JOIN user_data ON user_data.discord_id = racer_data.discord_id " +:+
  "    JOIN race_data ON race_data.race_id = racer_data.race_id " +:+
  "    GROUP BY user_data.name " +:+
  ") tbl1 " +:+
  "ORDER BY total DESC " +:+
  "LIMIT %s".

(** [GROUP BY key] with two [SUM]s: the groups in the order their first row
    is met, each with the sums of the two weights of its rows. *)
Fixpoint tally_row {K} `{EqDecision K} (k : K) (w : nat * nat)
    (groups : list (K * (nat * nat))) : list (K * (nat * nat)) :=
  match groups with
  | [] => [(k, w)]
  | (k', n) :: rest =>
      if decide (k' = k) then (k', (n.1 + w.1, n.2 + w.2)%nat) :: rest
      else (k', n) :: tally_row k w rest
  end.

Definition group_tally {A K} `{EqDecision K} (key : A → K)
    (weight : A → nat * nat) (rows : list A) : list (K * (nat * nat)) :=
  foldl (λ groups row, tally_row (key row) (weight row) groups) [] rows.

(** The rows of [racer_data JOIN user_data JOIN race_data]: the user's name
    and the race of every result that has both. *)
Definition results_joined (d : db) : list (option string * race_row) :=
  omap (λ kv : Z * Z * racer_row,
          match user_data d !! kv.1.2, race_data d !! kv.1.1 with
          | Some u, Some rc => Some (u_name u, rc)
          | _, _ => None
          end)
       (map_to_list (racer_data d)).

(** The condition of one [IF]: a public All-zones race of the character, of
    the variant [amplified]. *)
Definition counts_as (character_name : string) (amplified : bool)
    (rc : race_row) : bool :=
  String.eqb (rc_character_name rc) character_name
  && String.eqb (rc_descriptor rc) "All-zones"
  && (if amplified then rc_amplified rc else negb (rc_amplified rc))
  && negb (rc_private rc).

(** [IF(..., 1, 0)] of the two sums. *)
Definition dlc_weight (character_name : string) (rc : race_row) : nat * nat :=
  (if counts_as character_name false rc then 1 else 0,
   if counts_as character_name true rc then 1 else 0)%nat.

(** A row of the result: [(user_name, total, num_predlc, num_postdlc)]. *)
Definition most_races_row : Type := option string * nat * nat * nat.

Definition select_most_races (character_name : string) (limit : nat)
    : Cursor (list most_races_row) :=
  λ d, (Returned
          (take limit
             (sort_by_key (λ row : most_races_row, - Z.of_nat row.1.1.2)
                ((λ g : option string * (nat * nat),
                    (g.1, (g.2.1 + g.2.2)%nat, g.2.1, g.2.2)) <$>
                 group_tally (λ j : option string * race_row, j.1)
                   (λ j : option string * race_row, dlc_weight character_name j.2)
                   (results_joined d)))), d).

Definition get_most_races_leaderboard (character_name : string) (limit : nat)
    : connection → outcome (list most_races_row) * connection :=
  DBConnect false
    (execute get_most_races_leaderboard_sql
       (select_most_races character_name limit)).

(** The results of public All-zones races of the character, of either
    variant, among the joined rows. *)
Definition public_allzones_results (d : db) (character_name : string)
    : list (option string * race_row) :=
  List.filter
    (λ j : option string * race_row,
       String.eqb (rc_character_name j.2) character_name
       && String.eqb (rc_descriptor j.2) "All-zones"
       && negb (rc_private j.2))
    (results_joined d).

(** ** All or nothing *)



(** ** The statements' texts *)

Lemma register_user_sql_accepted : accepted register_user_sql = true.
Proof. vm_compute. reflexivity. Qed.

Lemma get_prefs_sql_accepted : accepted get_prefs_sql = true.
Proof. vm_compute. reflexivity. Qed.

Lemma set_timezone_sql_accepted : accepted set_timezone_sql = true.
Proof. vm_compute. reflexivity. Qed.

Lemma set_rtmp_sql_accepted : accepted set_rtmp_sql = true.
Proof. vm_compute. reflexivity. Qed.

Lemma set_twitch_sql_accepted : accepted set_twitch_sql = true.
Proof. vm_compute. reflexivity. Qed.

Lemma set_user_info_sql_accepted : accepted set_user_info_sql = true.
Proof. vm_compute. reflexivity. Qed.

Lemma select_last_race_id_sql_accepted : accepted select_last_race_id_sql = true.
Proof. vm_compute. reflexivity. Qed.

Lemma insert_race_data_sql_accepted : accepted insert_race_data_sql = true.
Proof. vm_compute. reflexivity. Qed.

Lemma insert_racer_data_sql_accepted : accepted insert_racer_data_sql = true.
Proof. vm_compute. reflexivity. Qed.

Lemma upsert_racer_sql_accepted : accepted upsert_racer_sql = true.
Proof. vm_compute. reflexivity. Qed.

Lemma has_submitted_daily_sql_accepted : accepted has_submitted_daily_sql = true.
Proof. vm_compute. reflexivity. Qed.

Lemma has_registered_daily_sql_accepted : accepted has_registered_daily_sql = true.
Proof. vm_compute. reflexivity. Qed.

Lemma register_daily_sql_accepted : accepted register_daily_sql = true.
Proof. vm_compute. reflexivity. Qed.

Lemma registered_daily_sql_accepted : accepted registered_daily_sql = true.
Proof. vm_compute. reflexivity. Qed.

Lemma delete_from_daily_sql_accepted : accepted delete_from_daily_sql = true.
Proof. vm_compute. reflexivity. Qed.

Lemma get_fastest_times_leaderboard_sql_accepted amplified :
  accepted (get_fastest_times_leaderboard_sql amplified) = true.
Proof. destruct amplified; vm_compute; reflexivity. Qed.

Lemma set_rating_sql_accepted : accepted set_rating_sql = true.
Proof. vm_compute. reflexivity. Qed.

Lemma get_rating_sql_accepted : accepted get_rating_sql = true.
Proof. vm_compute. reflexivity. Qed.

(** The text of [submitted_daily] is the one the server does not accept: its
    words hold [1ORDER] and no [ORDER]. *)
Lemma submitted_daily_sql_words :
  sql_words submitted_daily_sql =
  ["SELECT"; "daily_id"; "FROM"; "daily_races"; "WHERE"; "discord_id"; "=";
   "%"; "s"; "AND"; "type"; "="; "%"; "s"; "AND"; "level"; "!"; "="; "-";
   "1ORDER"; "BY"; "daily_id"; "DESC"; "LIMIT"; "1"].
Proof. vm_compute. reflexivity. Qed.

Lemma submitted_daily_sql_rejected : accepted submitted_daily_sql = false.
Proof. vm_compute. reflexivity. Qed.

Create Rewrite HintDb sql.
#[local] Hint Rewrite
  register_user_sql_accepted get_prefs_sql_accepted set_timezone_sql_accepted
  set_rtmp_sql_accepted set_twitch_sql_accepted set_user_info_sql_accepted
  select_last_race_id_sql_accepted insert_race_data_sql_accepted
  insert_racer_data_sql_accepted upsert_racer_sql_accepted
  has_submitted_daily_sql_accepted has_registered_daily_sql_accepted
  register_daily_sql_accepted registered_daily_sql_accepted
  delete_from_daily_sql_accepted get_fastest_times_leaderboard_sql_accepted
  set_rating_sql_accepted get_rating_sql_accepted
  submitted_daily_sql_rejected : sql.

(** Runs the scope of a function: the statement's text is looked up, the
    scope and the monad are unfolded. *)
Ltac run_scope :=
  unfold DBConnect, execute, bind, ret, raise;
  autorewrite with sql; cbn [fst snd].

(** ** Profile setters *)

Lemma update_user_column_setter (f : user_row → user_row) col v discord_id c :
  (∀ u, only_column_changed col v u (f u)) →
  column_setter (DBConnect true (update_user discord_id f)) discord_id col v c.
Proof.
  intros Hf. unfold column_setter, DBConnect, update_user. cbn.
  repeat split; try reflexivity.
  - intros j Hj. by rewrite lookup_alter_ne.
  - destruct (user_data (session c) !! discord_id) as [u|] eqn:Hu.
    + exists (f u). split; [|apply Hf].
      by rewrite lookup_alter_eq, Hu.
    + destruct (session c) as [ud rd rrd dr ld]; cbn in *.
      unfold with_user_data; cbn. f_equal.
      apply alter_id. intros y Hy. congruence.
Qed.

Ltac column_cases :=
  intros u; split; [reflexivity | intros [] H; (reflexivity || congruence)].

(** C10: [set_timezone], [set_rtmp], [set_twitch] and [set_user_info] never
    create a [user_data] row.  Each returns without an error; when
    [discord_id] has no row the tables are left as they were, and when it
    has one, only the setter's own column of that row changes: every other
    column of the row, every other row and every other table is unchanged. *)
Theorem profile_setters_frame (c : connection) (discord_id : Z) (v : string) :
  column_setter (set_timezone discord_id v) discord_id Timezone (Some v) c ∧
  column_setter (set_rtmp discord_id v) discord_id RtmpName (Some v) c ∧
  column_setter (set_twitch discord_id v) discord_id TwitchName (Some v) c ∧
  column_setter (set_user_info discord_id v) discord_id UserInfo (Some v) c.
Proof.
  unfold set_timezone, set_rtmp, set_twitch, set_user_info, execute.
  autorewrite with sql.
  split; [|split; [|split]]; apply update_user_column_setter; column_cases.
Qed.

(** On a store whose only user is 7, setting the timezone of user 8 leaves
    the tables as they were. *)
Lemma profile_setters_frame_witness :
  session (set_timezone 8 "CET" (fresh_connection sample_db)).2 = sample_db.
Proof.
  destruct (profile_setters_frame (fresh_connection sample_db) 8 "CET")
    as [(_ & _ & _ & _ & _ & _ & _ & H) _].
  exact H.
Defined.

(** ** Preferences *)

(** C9: [get_prefs] raises (the [TypeError] of [prefs_row[0]] on [None])
    exactly when [discord_id] has no [user_data] row; when the row exists it
    returns the stored [daily_alert] and [race_alert]; in both cases the
    connection, committed store and session alike, is left as it was. *)
Theorem get_prefs_not_found_iff_no_row (c : connection) (discord_id : Z) :
  (get_prefs discord_id c).2 = c ∧
  (get_prefs discord_id c).1 =
    match user_data (session c) !! discord_id with
    | Some u => Returned {| daily_alert := Some (u_daily_alert u);
                            race_alert := Some (u_race_alert u) |}
    | None => Raised TypeError
    end ∧
  is_raised (get_prefs discord_id c).1 =
    bool_decide (user_data (session c) !! discord_id = None).
Proof.
  unfold get_prefs, select_prefs. run_scope.
  destruct c as [cm ss]; cbn.
  destruct (user_data ss !! discord_id) as [u|]; cbn; auto.
Qed.

(** ** Identity upsert *)

Lemma set_u_name_only_column v u :
  only_column_changed Name v u (set_u_name v u).
Proof. split; [reflexivity | intros [] H; (reflexivity || congruence)]. Qed.

Lemma set_u_name_twice v w u : set_u_name v (set_u_name w u) = set_u_name v u.
Proof. reflexivity. Qed.

Lemma filter_key_NoDup {V} (k : Z) (v : V) (l : list (Z * V)) :
  NoDup l.*1 → (k, v) ∈ l →
  List.filter (λ kv : Z * V, kv.1 =? k) l = [(k, v)].
Proof.
  induction l as [|[k' v'] l IH]; intros Hnd Hin.
  - by apply elem_of_nil in Hin.
  - cbn in Hnd. apply NoDup_cons in Hnd as [Hk' Hnd]. cbn.
    apply elem_of_cons in Hin as [Heq|Hin].
    + injection Heq as <- <-. rewrite Z.eqb_refl. f_equal.
      clear IH Hnd. induction l as [|[k2 v2] l IH]; [done|].
      cbn. destruct (k2 =? k) eqn:E.
      * apply Z.eqb_eq in E. subst. exfalso. apply Hk'. cbn. left.
      * apply IH. intros H. apply Hk'. cbn. by right.
    + destruct (k' =? k) eqn:E.
      * apply Z.eqb_eq in E. subst. exfalso. apply Hk'.
        apply list_elem_of_fmap. by exists (k, v).
      * by apply IH.
Qed.

Lemma rows_of_key_lookup {V} (k : Z) (v : V) (m : gmap Z V) :
  m !! k = Some v → rows_of_key k m = [(k, v)].
Proof.
  intros H. apply filter_key_NoDup.
  - apply NoDup_fst_map_to_list.
  - by apply elem_of_map_to_list.
Qed.

(** C7: [register_user] is a name-only upsert.  Registering [discord_id]
    under [n1] and then under [n2] returns both times, commits, and leaves
    exactly one [user_data] row for [discord_id]; its name is [n2] and its
    other columns are those the row had after the first call (so those it
    had before, when it existed); the rows of the other users are as they
    were.  Repeating either call right after itself changes nothing. *)
Theorem register_user_upsert (default_user : user_row) (c : connection)
    (discord_id : Z) (n1 n2 d1 d2 : string) :
  let m1 := {| member_id := discord_id; member_name := n1;
               member_display_name := d1 |} in
  let m2 := {| member_id := discord_id; member_name := n2;
               member_display_name := d2 |} in
  let c1 := (register_user default_user m1 c).2 in
  let c2 := (register_user default_user m2 c1).2 in
  (register_user default_user m1 c).1 = Returned () ∧
  (register_user default_user m2 c1).1 = Returned () ∧
  committed c2 = session c2 ∧
  (∃ u1 u2,
     user_data (session c1) !! discord_id = Some u1 ∧
     only_column_changed Name (Some n1)
       (default default_user (user_data (session c) !! discord_id)) u1 ∧
     rows_of_key discord_id (user_data (session c2)) = [(discord_id, u2)] ∧
     only_column_changed Name (Some n2) u1 u2) ∧
  (∀ j, j ≠ discord_id →
     user_data (session c2) !! j = user_data (session c) !! j) ∧
  register_user default_user m1 c1 = (Returned (), c1) ∧
  register_user default_user m2 c2 = (Returned (), c2).
Proof.
  unfold register_user, upsert_user_name. run_scope. cbn.
  split; [done|]. split; [done|]. split; [done|].
  rewrite !lookup_insert_eq. cbn.
  split; [|split; [|split]].
  - eexists _, _. split; [reflexivity|].
    split; [apply set_u_name_only_column|].
    split; [|apply set_u_name_only_column].
    apply rows_of_key_lookup. by rewrite lookup_insert_eq.
  - intros j Hj. by rewrite !lookup_insert_ne.
  - f_equal. unfold with_user_data; cbn.
    rewrite ?insert_insert_eq, ?lookup_insert_eq. cbn.
    rewrite ?insert_insert_eq, ?set_u_name_twice. reflexivity.
  - f_equal. unfold with_user_data; cbn.
    rewrite ?insert_insert_eq, ?lookup_insert_eq. cbn.
    rewrite ?insert_insert_eq, !set_u_name_twice. reflexivity.
Qed.

(** Registering user 7 twice on a store that holds no user 8. *)
Lemma register_user_upsert_witness :
  let m1 := {| member_id := 7; member_name := "inc"; member_display_name := "" |} in
  let m2 := {| member_id := 7; member_name := "incnone"; member_display_name := "" |} in
  user_data
    (session (register_user null_user m2
                (register_user null_user m1 (fresh_connection sample_db)).2).2)
    !! 8 = user_data sample_db !! 8.
Proof.
  destruct (register_user_upsert null_user (fresh_connection sample_db)
              7 "inc" "incnone" "" "")
    as (_ & _ & _ & _ & H & _ & _).
  apply (H 8). discriminate.
Defined.

(** ** Reading from the cursor *)

Lemma first_or_0_one_row (row : Z) :
  first_or_0 (after_select [row]) =
  (Returned row, {| unread := []; at_end := true; fetched := 1 |}).
Proof. reflexivity. Qed.

Lemma first_or_0_no_row :
  first_or_0 (after_select []) =
  (Raised TypeError, {| unread := []; at_end := true; fetched := 0 |}).
Proof. reflexivity. Qed.

(** [ORDER BY ... DESC LIMIT 1] followed by [first_or_0]: the largest value
    is returned, and [TypeError] is raised when there is none. *)
Lemma fetching_largest (stmt : Cursor (list Z)) (l : list Z) (d : db) :
  stmt d = (Returned (order_by_desc_limit_1 l), d) →
  fetching stmt first_or_0 d =
  (match l with
   | [] => Raised TypeError
   | x :: l' => Returned (foldr Z.max x l')
   end, d).
Proof.
  intros Hstmt. unfold fetching. rewrite Hstmt. by destruct l.
Qed.

(** ** Daily challenge tracker: withdrawal *)

(** C8 on the code: [register_daily] followed by [delete_from_daily] leaves
    the row of the key with level -1 and its time, and neither call raises;
    but [has_submitted_daily] and [has_registered_daily] return nothing.
    Each reads [cursor.rowcount] without fetching a row and leaves the
    result unread, so the [cursor.close()] of [__exit__] raises
    [InternalError] on every call, on this store as on any other. *)
Theorem daily_tests_raise_on_close (c : connection)
    (discord_id daily_id daily_type level time : Z) :
  let c1 := (register_daily discord_id daily_id daily_type level time c).2 in
  let c2 := (delete_from_daily discord_id daily_id daily_type c1).2 in
  (register_daily discord_id daily_id daily_type level time c).1 = Returned () ∧
  (delete_from_daily discord_id daily_id daily_type c1).1 = Returned () ∧
  daily_races (session c2) !! (discord_id, daily_id, daily_type) =
    Some {| dr_level := -1; dr_time := time |} ∧
  (has_submitted_daily discord_id daily_id daily_type c2).1 = Raised InternalError ∧
  (has_registered_daily discord_id daily_id daily_type c2).1 = Raised InternalError ∧
  (has_submitted_daily discord_id daily_id daily_type c).1 = Raised InternalError ∧
  (has_registered_daily discord_id daily_id daily_type c).1 = Raised InternalError.
Proof.
  cbn zeta.
  unfold register_daily, delete_from_daily, has_submitted_daily,
    has_registered_daily, upsert_daily_race, withdraw_daily_race,
    select_daily_row, fetching.
  run_scope. cbn.
  rewrite lookup_alter_eq, lookup_insert_eq. cbn.
  by repeat split.
Qed.

(** [delete_from_daily] raises nothing and commits.  On a key that has no
    row it leaves the tables as they were; on a key that has one it sets
    the level to -1 and keeps the time.  The other rows and the other
    tables are as they were. *)
Theorem delete_from_daily_soft (c : connection)
    (discord_id daily_id daily_type : Z) :
  let result := delete_from_daily discord_id daily_id daily_type c in
  result.1 = Returned () ∧
  committed result.2 = session result.2 ∧
  match daily_races (session c) !! (discord_id, daily_id, daily_type) with
  | None => session result.2 = session c
  | Some row =>
      daily_races (session result.2) =
        <[(discord_id, daily_id, daily_type) :=
            {| dr_level := -1; dr_time := dr_time row |}]>
          (daily_races (session c)) ∧
      user_data (session result.2) = user_data (session c) ∧
      race_data (session result.2) = race_data (session c) ∧
      racer_data (session result.2) = racer_data (session c) ∧
      ladder_data (session result.2) = ladder_data (session c)
  end.
Proof.
  cbn zeta. unfold delete_from_daily, withdraw_daily_race. run_scope. cbn.
  split; [done|]. split; [done|].
  destruct (daily_races (session c) !! _) as [row|] eqn:Hrow.
  - repeat split; try done.
    apply map_eq. intros k.
    destruct (decide (k = (discord_id, daily_id, daily_type))) as [->|Hne].
    + by rewrite lookup_alter_eq, lookup_insert_eq, Hrow.
    + by rewrite lookup_alter_ne, lookup_insert_ne.
  - destruct (session c) as [ud rd rrd dr ld]; cbn in *.
    unfold with_daily_races; cbn. f_equal.
    apply alter_id. intros y Hy. congruence.
Qed.


(** ** Daily challenge tracker: the latest submitted daily *)

Lemma submitted_daily_raises (c : connection) (discord_id daily_type : Z) :
  submitted_daily discord_id daily_type c = (Raised ProgrammingError, c).
Proof.
  unfold submitted_daily. run_scope. by destruct c.
Qed.

(** C5 at a store where the user has submitted rows: the largest submitted
    [daily_id] is 5 and the sibling [registered_daily] returns the largest
    registered one, 6, but [submitted_daily] raises [ProgrammingError]: its
    statement reads [level != -1ORDER BY ...]. *)
Theorem submitted_daily_fails_on_submitted_rows :
  latest_submitted daily_db 1 0 = 5 ∧
  (registered_daily 1 0 (fresh_connection daily_db)).1 = Returned 6 ∧
  (submitted_daily 1 0 (fresh_connection daily_db)).1 = Raised ProgrammingError.
Proof.
  split; [vm_compute; reflexivity|].
  split; [vm_compute; reflexivity|].
  by rewrite submitted_daily_raises.
Qed.

(** ** Rating store *)

Lemma get_rating_after_set_rating (id_column_store : Q → Z)
    (column_store : Q → Q) (c : connection) (discord_id : Z) (rating : Rating) :
  (get_rating discord_id
     (set_rating id_column_store column_store discord_id rating c).2).1 =
  if decide (id_column_store (mu rating) = discord_id)
  then Returned
         (Some (create_rating
                  (inject_Z (py_int (column_store (sigma rating))))
                  (inject_Z (py_int (column_store (inject_Z discord_id))))))
  else (get_rating discord_id c).1.
Proof.
  unfold get_rating, set_rating, upsert_ladder, select_ladder.
  run_scope. cbn. case_decide as Hk.
  - rewrite Hk, lookup_insert_eq. reflexivity.
  - by rewrite lookup_insert_ne.
Qed.

(** C6 at [set_rating(7, Rating(mu=25.7, sigma=8.3))] on an empty store, with
    a key column that rounds and value columns that keep the number:
    [get_rating(7)] returns [None], not [Rating(25, 8)].  The row went under
    the key 26 with [trueskill_mu = 8.3] and [trueskill_sigma = 7], because
    the parameters are passed as [(mu, sigma, discord_id)] for the columns
    [(discord_id, trueskill_mu, trueskill_sigma)]. *)
Theorem set_rating_writes_under_mu :
  let rating := create_rating (257 # 10) (83 # 10) in
  let c := (set_rating round_half_away id 7 rating (fresh_connection empty_db)).2 in
  (get_rating 7 c).1 = Returned None ∧
  (get_rating 26 c).1 = Returned (Some (create_rating (inject_Z 8) (inject_Z 7))) ∧
  py_int (257 # 10) = 25 ∧ py_int (83 # 10) = 8.
Proof. vm_compute. auto. Qed.

(** ** The stable sort *)

Section Sorting.

Context {A : Type} (key : A → Z).

Lemma insert_by_key_perm x l : insert_by_key key x l ≡ₚ x :: l.
Proof.
  induction l as [|y l IH]; cbn; [done|].
  destruct (key x <=? key y); [done|].
  rewrite IH. apply Permutation_swap.
Qed.

Lemma sort_by_key_perm l : sort_by_key key l ≡ₚ l.
Proof.
  induction l as [|x l IH]; cbn; [done|].
  by rewrite insert_by_key_perm, IH.
Qed.

Lemma insert_by_key_sorted x l :
  StronglySorted (key_le key) l → StronglySorted (key_le key) (insert_by_key key x l).
Proof.
  induction 1 as [|y l Hs IH Hy]; cbn.
  - repeat constructor.
  - destruct (key x <=? key y) eqn:E.
    + apply Z.leb_le in E. constructor; [by constructor|].
      constructor; [done|].
      eapply Forall_impl; [exact Hy|]. unfold key_le. intros; lia.
    + apply Z.leb_gt in E. constructor; [done|].
      rewrite insert_by_key_perm. constructor; [unfold key_le; lia | done].
Qed.

Lemma sort_by_key_sorted l : StronglySorted (key_le key) (sort_by_key key l).
Proof.
  induction l as [|x l IH]; cbn; [constructor|].
  by apply insert_by_key_sorted.
Qed.

(** Stability: the elements of one key stand in the order they had. *)
Lemma insert_by_key_stable k x l :
  List.filter (λ a, key a =? k) (insert_by_key key x l) =
  List.filter (λ a, key a =? k) (x :: l).
Proof.
  induction l as [|y l IH]; [done|].
  cbn [insert_by_key]. destruct (key x <=? key y) eqn:E; [done|].
  apply Z.leb_gt in E. cbn [List.filter] in *. rewrite IH.
  destruct (key x =? k) eqn:Ex, (key y =? k) eqn:Ey; try done.
  apply Z.eqb_eq in Ex, Ey. lia.
Qed.

Lemma sort_by_key_stable k l :
  List.filter (λ a, key a =? k) (sort_by_key key l) =
  List.filter (λ a, key a =? k) l.
Proof.
  induction l as [|x l IH]; [done|].
  cbn [sort_by_key]. rewrite insert_by_key_stable. cbn. by rewrite IH.
Qed.

End Sorting.

(** ** The next race id *)

Lemma foldr_max_ge x l :
  x ≤ foldr Z.max x l ∧ Forall (λ y, y ≤ foldr Z.max x l) l.
Proof.
  induction l as [|y l [IH1 IH2]]; cbn; [split; [lia | constructor]|].
  split; [lia|]. constructor; [lia|].
  eapply Forall_impl; [exact IH2|]. cbn. intros; lia.
Qed.

Lemma foldr_max_elem x l : foldr Z.max x l ∈ x :: l.
Proof.
  induction l as [|y l IH]; cbn; [left|].
  destruct (Z.max_spec y (foldr Z.max x l)) as [[_ ->]|[_ ->]].
  - apply elem_of_cons in IH as [->|IH]; [left | right; by right].
  - right; left.
Qed.

Lemma elem_of_keys {V} (m : gmap Z V) k :
  k ∈ (map_to_list m).*1 ↔ is_Some (m !! k).
Proof.
  rewrite list_elem_of_fmap. split.
  - intros [[k' v] [-> H]]. apply elem_of_map_to_list in H. by exists v.
  - intros [v H]. exists (k, v). split; [done|]. by apply elem_of_map_to_list.
Qed.

Lemma next_race_id_above (d : db) k :
  is_Some (race_data d !! k) → k < next_race_id d.
Proof.
  intros H. apply elem_of_keys in H. unfold next_race_id.
  destruct ((map_to_list (race_data d)).*1) as [|x l]; [by apply elem_of_nil in H|].
  cbn. destruct (foldr_max_ge x l) as [H1 H2].
  apply elem_of_cons in H as [->|H]; [lia|].
  rewrite Forall_forall in H2. specialize (H2 _ H). lia.
Qed.

Lemma next_race_id_is_max_plus_1 (d : db) :
  (race_data d = ∅ ∧ next_race_id d = 0) ∨
  is_Some (race_data d !! (next_race_id d - 1)).
Proof.
  unfold next_race_id.
  destruct ((map_to_list (race_data d)).*1) as [|x l] eqn:E.
  - left. split; [|done].
    apply fmap_nil_inv in E. by apply map_to_list_empty_iff in E.
  - right. cbn. replace (foldr Z.max x l + 1 - 1) with (foldr Z.max x l) by lia.
    apply elem_of_keys. rewrite E. apply foldr_max_elem.
Qed.

Lemma next_race_id_fresh (d : db) : race_data d !! next_race_id d = None.
Proof.
  destruct (race_data d !! next_race_id d) eqn:E; [|done].
  assert (next_race_id d < next_race_id d); [|lia].
  apply next_race_id_above. by eexists.
Qed.

(** The next id depends on the [race_data] table only, and recording under
    it moves it up by one. *)
Lemma next_race_id_after_insert (d d' : db) row :
  race_data d' = <[next_race_id d := row]> (race_data d) →
  next_race_id d' = next_race_id d + 1.
Proof.
  intros Hd'.
  assert (next_race_id d < next_race_id d') as Hlt.
  { apply next_race_id_above. rewrite Hd', lookup_insert_eq. by eexists. }
  destruct (next_race_id_is_max_plus_1 d') as [[He _]|Hs].
  - rewrite Hd' in He. by apply insert_non_empty in He.
  - rewrite Hd' in Hs.
    destruct (decide (next_race_id d = next_race_id d' - 1)) as [|Hne]; [lia|].
    rewrite lookup_insert_ne in Hs by done.
    apply next_race_id_above in Hs. lia.
Qed.

(** ** Race recorder *)

Section Recorder.

Variable default_user : user_row.

Lemma record_racers_cons new_raceid rank racer rest d :
  record_racers default_user new_raceid rank (racer :: rest) d =
  match racer_data d !! (new_raceid, racer_id racer) with
  | Some _ => (Raised IntegrityError, d)
  | None =>
      record_racers default_user new_raceid
        (if is_finished racer then rank + 1 else rank) rest
        (after_racer default_user new_raceid rank racer d)
  end.
Proof.
  cbn [record_racers]. unfold insert_racer_data, upsert_user_name.
  run_scope.
  destruct (racer_data d !! (new_raceid, racer_id racer)); reflexivity.
Qed.

Lemma record_race_body_unfold race d :
  record_race_body default_user race d =
  record_racers default_user (next_race_id d) 1
    (sort_by_key (sort_key (max_time_of (racers race))) (racers race))
    (with_race_data (insert (next_race_id d) (race_params race)) d).
Proof.
  unfold record_race_body, select_last_race_id, insert_race_data.
  run_scope. fold (next_race_id d).
  by rewrite next_race_id_fresh.
Qed.

(** The loop over racers of distinct ids, on tables that hold no result of
    the race yet: it returns, and every racer's row carries the counter's
    value when the loop reached the racer. *)
Lemma record_racers_returns new_raceid l : ∀ rank d,
  NoDup (racer_id <$> l) →
  (∀ r, r ∈ l → racer_data d !! (new_raceid, racer_id r) = None) →
  ∃ d',
    record_racers default_user new_raceid rank l d = (Returned (), d') ∧
    race_data d' = race_data d ∧
    (∀ l1 r l2, l = l1 ++ r :: l2 →
       racer_data d' !! (new_raceid, racer_id r) =
       Some (racer_params r (rank + Z.of_nat (length (finishers l1))))) ∧
    (∀ k, (∀ r, r ∈ l → k ≠ (new_raceid, racer_id r)) →
       racer_data d' !! k = racer_data d !! k).
Proof.
  induction l as [|r l IH]; intros rank d Hnd Hfresh.
  - exists d. split; [done|]. split; [done|]. split.
    + intros [|] ? ? H; discriminate H.
    + done.
  - cbn in Hnd. apply NoDup_cons in Hnd as [Hr Hnd].
    rewrite record_racers_cons, (Hfresh r) by left.
    set (rank' := if is_finished r then rank + 1 else rank).
    set (d1 := after_racer default_user new_raceid rank r d).
    assert (∀ x, x ∈ l → racer_id x ≠ racer_id r) as Hne.
    { intros x Hx Heq. apply Hr. rewrite <- Heq.
      apply list_elem_of_fmap. by exists x. }
    destruct (IH rank' d1 Hnd) as (d' & Hrun & Hrace & Hrows & Hframe).
    { intros x Hx. cbn. rewrite lookup_insert_ne.
      - apply Hfresh. by right.
      - intros [=]. by apply (Hne x Hx). }
    exists d'. split; [done|]. split; [by rewrite Hrace|]. split.
    + intros [|y l1] x l2 Hl; cbn in Hl; injection Hl as -> ->.
      * rewrite Hframe.
        -- cbn. rewrite lookup_insert_eq. do 2 f_equal. lia.
        -- intros y Hy [=]. by apply (Hne y Hy).
      * rewrite (Hrows l1 x l2 eq_refl). do 2 f_equal.
        subst rank'. unfold finishers. cbn.
        destruct (is_finished y); cbn; lia.
    + intros k Hk. rewrite Hframe.
      * cbn. rewrite lookup_insert_ne; [done|]. intros <-. apply (Hk r); [left | done].
      * intros x Hx. apply Hk. by right.
Qed.


End Recorder.

(** ** Filtering with a test *)

Section Filter.

Context {A : Type}.
Implicit Types (f g : A → bool) (l : list A).

Lemma elem_of_bool_filter f l x : x ∈ List.filter f l ↔ x ∈ l ∧ f x = true.
Proof. rewrite !list_elem_of_In. apply filter_In. Qed.

Lemma bool_filter_ext f g l :
  (∀ x, x ∈ l → f x = g x) → List.filter f l = List.filter g l.
Proof.
  intros H. apply filter_ext_in. intros x Hx. apply H. by apply list_elem_of_In.
Qed.

Lemma bool_filter_all f l : (∀ x, x ∈ l → f x = true) → List.filter f l = l.
Proof.
  induction l as [|y l IH]; intros H; cbn; [done|].
  rewrite (H y) by left. f_equal. apply IH. intros x Hx. apply H. by right.
Qed.

Lemma bool_filter_none f l : (∀ x, x ∈ l → f x = false) → List.filter f l = [].
Proof.
  induction l as [|y l IH]; intros H; cbn; [done|].
  rewrite (H y) by left. apply IH. intros x Hx. apply H. by right.
Qed.

Lemma bool_filter_perm f l l' : l ≡ₚ l' → List.filter f l ≡ₚ List.filter f l'.
Proof.
  induction 1 as [|x l l' _ IH|x y l|l l' l'' _ IH1 _ IH2]; cbn.
  - done.
  - destruct (f x); by rewrite IH.
  - destruct (f x), (f y); try done. apply Permutation_swap.
  - by rewrite IH1.
Qed.

(** In a list sorted by [key] whose elements with [f] have distinct keys,
    the elements with [f] and a key below that of [r] are those with [f]
    that stand before [r]. *)
Lemma sorted_before (key : A → Z) f l1 r l2 :
  StronglySorted (key_le key) (l1 ++ r :: l2) →
  NoDup (key <$> List.filter f (l1 ++ r :: l2)) →
  f r = true →
  List.filter (λ x, f x && (key x <? key r)) (l1 ++ r :: l2) = List.filter f l1.
Proof.
  intros Hs Hnd Hr.
  apply StronglySorted_app in Hs as (Hle & _ & Hs2).
  apply StronglySorted_cons in Hs2 as [Hr2 _].
  rewrite List.filter_app in Hnd. cbn in Hnd. rewrite Hr in Hnd.
  rewrite fmap_app in Hnd. cbn in Hnd.
  apply NoDup_app in Hnd as (_ & Hnot & _).
  rewrite List.filter_app. cbn. rewrite Hr, Z.ltb_irrefl. cbn.
  rewrite (bool_filter_none _ l2), app_nil_r.
  - apply bool_filter_ext. intros x Hx.
    destruct (f x) eqn:Hfx; [cbn|done].
    apply Z.ltb_lt.
    assert (key x ≤ key r) by (apply Hle; [done | left]).
    assert (key x ≠ key r); [|lia].
    intros Heq. apply (Hnot (key x)).
    + apply list_elem_of_fmap. exists x. split; [done|].
      by apply elem_of_bool_filter.
    + rewrite Heq. left.
  - intros x Hx. rewrite Forall_forall in Hr2. specialize (Hr2 x Hx).
    unfold key_le in Hr2.
    destruct (f x); [cbn|done]. apply Z.ltb_ge. lia.
Qed.

End Filter.

(** ** Ranks *)

Lemma foldl_max_time_above (l : list Racer) : ∀ acc,
  let m := foldl (λ max_time racer,
                    if is_finished racer then Z.max (racer_time racer) max_time
                    else max_time) acc l in
  acc ≤ m ∧ ∀ r, r ∈ l → is_finished r = true → racer_time r ≤ m.
Proof.
  induction l as [|x l IH]; intros acc; cbn.
  - split; [lia|]. intros r Hr. by apply elem_of_nil in Hr.
  - destruct (IH (if is_finished x then Z.max (racer_time x) acc else acc))
      as [H1 H2].
    split; [destruct (is_finished x); lia|].
    intros r Hr Hfin. apply elem_of_cons in Hr as [->|Hr]; [|by apply H2].
    rewrite Hfin in H1 |- *. lia.
Qed.

(** A racer who did not finish sorts after every finisher. *)
Lemma max_time_above (l : list Racer) r :
  r ∈ l → is_finished r = true → racer_time r < max_time_of l.
Proof.
  intros Hr Hfin. unfold max_time_of.
  destruct (foldl_max_time_above l 0) as [_ H]. specialize (H r Hr Hfin). lia.
Qed.

Lemma sort_key_finisher max_time r :
  is_finished r = true → sort_key max_time r = racer_time r.
Proof. unfold sort_key. by intros ->. Qed.

(** The counter's value when the loop reaches [r] is the rank
    [stored_rank] names. *)
Lemma rank_when_reached (l l1 l2 : list Racer) (r : Racer) :
  sort_by_key (sort_key (max_time_of l)) l = l1 ++ r :: l2 →
  NoDup (racer_time <$> finishers l) →
  1 + Z.of_nat (length (finishers l1)) = stored_rank l r.
Proof.
  intros Hs Hnd. set (key := sort_key (max_time_of l)) in *.
  pose proof (sort_by_key_perm key l) as Hperm.
  pose proof (sort_by_key_sorted key l) as Hsorted.
  rewrite Hs in Hperm, Hsorted.
  unfold stored_rank. destruct (is_finished r) eqn:Hfin.
  - do 2 f_equal. unfold faster_finishers, finishers.
    rewrite <- (Permutation_length (bool_filter_perm _ _ _ Hperm)).
    rewrite <- (sorted_before key is_finished l1 r l2 Hsorted); [|  |done].
    + f_equal. apply bool_filter_ext. intros x Hx.
      destruct (is_finished x) eqn:Hx'; [cbn|done].
      unfold key. by rewrite !sort_key_finisher.
    + replace (key <$> List.filter is_finished (l1 ++ r :: l2))
        with (racer_time <$> List.filter is_finished (l1 ++ r :: l2)).
      * by rewrite (bool_filter_perm is_finished _ _ Hperm).
      * apply list_fmap_ext. intros i x Hx. apply list_elem_of_lookup_2 in Hx.
        apply elem_of_bool_filter in Hx as [_ Hx].
        unfold key. by rewrite sort_key_finisher.
  - do 2 f_equal. unfold finishers.
    rewrite <- (Permutation_length (bool_filter_perm _ _ _ Hperm)).
    rewrite List.filter_app. cbn. rewrite Hfin.
    rewrite (bool_filter_none _ l2), app_nil_r; [done|].
    intros x Hx. destruct (is_finished x) eqn:Hx'; [exfalso|done].
    apply StronglySorted_app in Hsorted as (_ & _ & Hs2).
    apply StronglySorted_cons in Hs2 as [Hr2 _].
    rewrite Forall_forall in Hr2. specialize (Hr2 x Hx).
    unfold key_le, key, sort_key in Hr2. rewrite Hfin, Hx' in Hr2.
    assert (racer_time x < max_time_of l); [|lia].
    apply max_time_above; [|done].
    rewrite <- Hperm. apply elem_of_app. right. by right.
Qed.

(** The stored ranks of the finishers, read in ascending time order, are
    1, 2, ..., N. *)
Lemma finisher_ranks_in_time_order (l : list Racer) :
  NoDup (racer_time <$> finishers l) →
  stored_rank l <$> sort_by_key racer_time (finishers l) =
  Z.of_nat <$> seq 1 (length (finishers l)).
Proof.
  intros Hnd.
  pose proof (sort_by_key_perm racer_time (finishers l)) as Hperm.
  pose proof (sort_by_key_sorted racer_time (finishers l)) as Hsorted.
  rewrite <- (Permutation_length Hperm).
  assert (∀ l1 r l2, sort_by_key racer_time (finishers l) = l1 ++ r :: l2 →
            stored_rank l r = Z.of_nat (1 + length l1)) as Hrank.
  { intros l1 r l2 Hs. rewrite Hs in Hperm, Hsorted.
    assert (∀ x, x ∈ l1 ++ r :: l2 → is_finished x = true) as Hall.
    { intros x Hx. rewrite Hperm in Hx.
      by apply elem_of_bool_filter in Hx as [_ Hx]. }
    unfold stored_rank. rewrite (Hall r) by (apply elem_of_app; right; left).
    rewrite Nat2Z.inj_add. do 2 f_equal. unfold faster_finishers.
    transitivity (length (List.filter
                    (λ x, is_finished x && (racer_time x <? racer_time r))
                    (finishers l))).
    { unfold finishers. clear. induction l as [|y l IH]; cbn; [done|].
      destruct (is_finished y) eqn:E; cbn; rewrite ?E; cbn;
        destruct (racer_time y <? racer_time r); cbn; by rewrite IH. }
    rewrite <- (Permutation_length (bool_filter_perm _ _ _ Hperm)).
    rewrite (sorted_before racer_time is_finished l1 r l2 Hsorted).
    - f_equal. apply bool_filter_all. intros x Hx. apply Hall.
      apply elem_of_app. by left.
    - rewrite bool_filter_all by done. by rewrite Hperm.
    - apply Hall. apply elem_of_app. right. left. }
  clear Hperm Hsorted Hnd.
  revert Hrank. generalize (sort_by_key racer_time (finishers l)) as s.
  intros s. induction s as [|x s IH] using rev_ind; intros Hrank; [done|].
  rewrite fmap_app, length_app, Nat.add_comm. cbn [length Nat.add].
  rewrite seq_S, fmap_app. cbn. f_equal.
  - apply IH. intros l1 r l2 Hs. apply (Hrank l1 r (l2 ++ [x])).
    by rewrite Hs, <- app_assoc.
  - f_equal. apply (Hrank s x []). done.
Qed.

(** ** C1: ranks *)

Lemma results_have_race_empty : results_have_race empty_db.
Proof. intros race_id discord_id [row H]. cbn in H. by rewrite lookup_empty in H. Qed.

(** C1, amended: on a store whose results all belong to races (every
    [racer_data] row has its [race_data] row), when the racers of a race
    have distinct ids and its finishers distinct times, [record_race]
    returns and the result rows it commits give the finishers the ranks 1..N
    in ascending time order and every racer who did not finish the rank
    N + 1, one more than the number of finishers (1 when nobody
    finished). *)
Theorem record_race_ranks (default_user : user_row) (c : connection)
    (race : Race) :
  NoDup (racer_id <$> racers race) →
  NoDup (racer_time <$> finishers (racers race)) →
  results_have_race (session c) →
  (record_race default_user race c).1 = Returned () ∧
  (∀ r, r ∈ racers race →
     racer_data (committed (record_race default_user race c).2)
       !! (next_race_id (session c), racer_id r) =
     Some (racer_params r (stored_rank (racers race) r))) ∧
  stored_rank (racers race) <$> sort_by_key racer_time (finishers (racers race)) =
    Z.of_nat <$> seq 1 (length (finishers (racers race))) ∧
  (∀ r, is_finished r = false →
     stored_rank (racers race) r = Z.of_nat (length (finishers (racers race))) + 1).
Proof.
  intros Hids Htimes Hinv.
  set (l := racers race) in *.
  set (s := sort_by_key (sort_key (max_time_of l)) l).
  destruct (record_racers_returns default_user (next_race_id (session c)) s 1
              (with_race_data
                 (insert (next_race_id (session c)) (race_params race))
                 (session c)))
    as (d' & Hrun & _ & Hrows & _).
  { unfold s. by rewrite sort_by_key_perm. }
  { intros r _. cbn.
    destruct (racer_data (session c) !! (next_race_id (session c), racer_id r))
      eqn:E; [exfalso|done].
    destruct (Hinv (next_race_id (session c)) (racer_id r)) as [row Hrow];
      [by eexists|].
    by rewrite next_race_id_fresh in Hrow. }
  unfold record_race, DBConnect.
  rewrite record_race_body_unfold. fold l s. rewrite Hrun. cbn.
  split; [done|]. split; [|split].
  - intros r Hr.
    assert (r ∈ s) as Hs by (unfold s; by rewrite sort_by_key_perm).
    apply list_elem_of_split in Hs as (l1 & l2 & Hs).
    rewrite (Hrows l1 r l2 Hs). do 2 f_equal.
    by apply (rank_when_reached l l1 l2 r).
  - by apply finisher_ranks_in_time_order.
  - intros r Hr. unfold stored_rank. rewrite Hr. lia.
Qed.

(** [podium_race] on an empty store meets the conditions: it is recorded,
    and its rows carry the ranks of [stored_rank]. *)
Lemma record_race_ranks_witness :
  (record_race null_user podium_race (fresh_connection empty_db)).1 = Returned () ∧
  (∀ r, r ∈ racers podium_race →
     racer_data
       (committed (record_race null_user podium_race (fresh_connection empty_db)).2)
       !! (next_race_id empty_db, racer_id r) =
     Some (racer_params r (stored_rank (racers podium_race) r))).
Proof.
  pose proof (record_race_ranks null_user (fresh_connection empty_db) podium_race)
    as H.
  destruct H as (H1 & H2 & _).
  - apply (bool_decide_unpack _). vm_compute. exact I.
  - apply (bool_decide_unpack _). vm_compute. exact I.
  - exact results_have_race_empty.
  - split; [exact H1 | exact H2].
Defined.

(** C1 as stated fails on its own example: with finishers at 10, 20 and 30
    the last finisher is stored with rank 3 and the racer who did not finish
    with rank 4, not 3. *)
Lemma nonfinisher_rank_is_past_last_finisher :
  let d := committed
             (record_race null_user podium_race (fresh_connection empty_db)).2 in
  rr_rank <$> racer_data d !! (0, 1) = Some 1 ∧
  rr_rank <$> racer_data d !! (0, 2) = Some 2 ∧
  rr_rank <$> racer_data d !! (0, 3) = Some 3 ∧
  rr_rank <$> racer_data d !! (0, 4) = Some 4 ∧
  rr_rank <$> racer_data d !! (0, 4) ≠ rr_rank <$> racer_data d !! (0, 3).
Proof. vm_compute. repeat split; congruence. Qed.

(** ** C2: what a failing call leaves behind *)

Lemma record_racers_race_data default_user new_raceid l : ∀ rank d,
  race_data (record_racers default_user new_raceid rank l d).2 = race_data d.
Proof.
  induction l as [|r l IH]; intros rank d; [done|].
  rewrite record_racers_cons.
  destruct (racer_data d !! (new_raceid, racer_id r)); [done|].
  by rewrite IH.
Qed.





(** ** C3: race ids *)

Lemma record_race_race_data default_user race c :
  committed (record_race default_user race c).2 =
    session (record_race default_user race c).2 ∧
  race_data (session (record_race default_user race c).2) =
    <[next_race_id (session c) := race_params race]> (race_data (session c)).
Proof.
  unfold record_race, DBConnect. rewrite record_race_body_unfold.
  pose proof (record_racers_race_data default_user (next_race_id (session c))
                (sort_by_key (sort_key (max_time_of (racers race))) (racers race))
                1 (with_race_data
                     (insert (next_race_id (session c)) (race_params race))
                     (session c))) as Hrace.
  destruct (record_racers _ _ _ _ _) as [r s]. cbn in *. by split.
Qed.

Lemma record_races_ids default_user races : ∀ c,
  (record_races default_user races c).1 =
  (λ i, next_race_id (session c) + Z.of_nat i) <$> seq 0 (length races).
Proof.
  induction races as [|race races IH]; intros c; [done|].
  cbn [record_races length].
  specialize (IH (record_race default_user race c).2).
  destruct (record_races default_user races _) as [ids c'].
  cbn in *. f_equal; [lia|].
  rewrite IH, <- fmap_S_seq, <- list_fmap_compose.
  rewrite (next_race_id_after_insert (session c) _ (race_params race))
    by apply record_race_race_data.
  apply list_fmap_ext. intros i x _. cbn. lia.
Qed.

(** C3: the ids a sequence of [record_race] calls gives its races, whatever
    the calls' outcomes, are consecutive from the first one, hence strictly
    increasing, and none of them was in the race table before.  Each call
    takes 0 when the table is empty and 1 + the largest id in it otherwise,
    stores the race under that id and commits it, so that the next id read
    from the committed store is one higher. *)
Theorem race_ids_strictly_increasing (default_user : user_row)
    (races : list Race) (race : Race) (c : connection) :
  let ids := (record_races default_user races c).1 in
  let c' := (record_race default_user race c).2 in
  ids = (λ i, next_race_id (session c) + Z.of_nat i) <$> seq 0 (length races) ∧
  StronglySorted Z.lt ids ∧
  Forall (λ id, race_data (session c) !! id = None) ids ∧
  ((race_data (session c) = ∅ ∧ next_race_id (session c) = 0) ∨
   is_Some (race_data (session c) !! (next_race_id (session c) - 1))) ∧
  map_Forall (λ id _, id < next_race_id (session c)) (race_data (session c)) ∧
  race_data (committed c') =
    <[next_race_id (session c) := race_params race]> (race_data (session c)) ∧
  next_race_id (committed c') = next_race_id (session c) + 1.
Proof.
  cbn zeta. rewrite record_races_ids.
  destruct (record_race_race_data default_user race c) as (Hc & Hr).
  rewrite <- Hc in Hr.
  split; [done|]. split; [|split; [|split; [|split; [|split]]]].
  - generalize (next_race_id (session c)) as n. generalize 0%nat as k.
    induction (length races) as [|m IH]; intros k n; cbn; constructor.
    + apply IH.
    + apply Forall_forall. intros x Hx.
      apply list_elem_of_fmap in Hx as (i & -> & Hi).
      apply elem_of_seq in Hi. lia.
  - apply Forall_forall. intros x Hx.
    apply list_elem_of_fmap in Hx as (i & -> & Hi).
    destruct (race_data (session c) !! _) eqn:E; [exfalso|done].
    assert (next_race_id (session c) + Z.of_nat i < next_race_id (session c));
      [|lia].
    apply next_race_id_above. by eexists.
  - apply next_race_id_is_max_plus_1.
  - intros id row Hid. apply next_race_id_above. by eexists.
  - exact Hr.
  - by apply (next_race_id_after_insert _ _ (race_params race)).
Qed.

(** ** C4: the leaderboard on tied times *)

(** C4 at [tied_times]: user 1 has one qualifying race, yet the leaderboard
    returns three rows for that user, among them the private race (seed 22)
    and the unseeded race (seed 33).  The derived table [rd1] holds the one
    minimum of the user, 100, and the outer [SELECT] joins it back to
    [racer_data] on [discord_id] and [time] alone. *)
Theorem leaderboard_repeats_user_on_tied_times :
  map_to_list (rd1 (session tied_times) "Cadence" false) = [(1, 100)] ∧
  (get_fastest_times_leaderboard "Cadence" false 10 tied_times).1 =
  Returned [(Some "alice", 100, 11, "2017-03-01 20:00:00");
            (Some "alice", 100, 22, "2017-03-01 20:00:00");
            (Some "alice", 100, 33, "2017-03-01 20:00:00")].
Proof. vm_compute. auto. Qed.

(** ** Referential integrity of the result rows *)

Lemma record_racers_integrity default_user new_raceid l : ∀ rank d,
  is_Some (race_data d !! new_raceid) →
  results_have_race d ∧ results_have_user d →
  results_have_race (record_racers default_user new_raceid rank l d).2 ∧
  results_have_user (record_racers default_user new_raceid rank l d).2.
Proof.
  induction l as [|r l IH]; intros rank d Hrace [H1 H2]; [done|].
  rewrite record_racers_cons.
  destruct (racer_data d !! (new_raceid, racer_id r)) eqn:E; [done|].
  apply IH; [done|]. split.
  - intros rid uid. cbn.
    destruct (decide ((new_raceid, racer_id r) = (rid, uid))) as [[= <- <-]|Hne].
    + done.
    + rewrite lookup_insert_ne by done. apply H1.
  - intros rid uid. cbn.
    destruct (decide (racer_id r = uid)) as [<-|Hne].
    + rewrite lookup_insert_eq. by eexists.
    + rewrite (lookup_insert_ne (user_data d)) by done.
      rewrite lookup_insert_ne by congruence. apply H2.
Qed.

(** Every result row belongs to a race and to a user, before and after
    [record_race], whether the call returned or raised: the row of a racer
    is written after the race row, and the identity upsert follows it before
    the next statement that can fail. *)
Theorem record_race_keeps_integrity (default_user : user_row) (c : connection)
    (race : Race) :
  results_have_race (session c) ∧ results_have_user (session c) →
  results_have_race (committed (record_race default_user race c).2) ∧
  results_have_user (committed (record_race default_user race c).2).
Proof.
  intros [H1 H2]. unfold record_race, DBConnect.
  rewrite record_race_body_unfold.
  pose proof (record_racers_integrity default_user (next_race_id (session c))
                (sort_by_key (sort_key (max_time_of (racers race))) (racers race))
                1 (with_race_data
                     (insert (next_race_id (session c)) (race_params race))
                     (session c))) as H.
  destruct (record_racers _ _ _ _ _) as [r s]. cbn in *. apply H.
  - rewrite lookup_insert_eq. by eexists.
  - split; [|exact H2].
    intros rid uid Hrow. cbn in *. apply lookup_insert_is_Some'.
    right. by apply (H1 rid uid).
Qed.

(** The empty store has no result row, and [clone_race] is a race whose
    recording raises. *)
Lemma record_race_keeps_integrity_witness :
  results_have_race
    (committed (record_race null_user clone_race (fresh_connection empty_db)).2) ∧
  results_have_user
    (committed (record_race null_user clone_race (fresh_connection empty_db)).2).
Proof.
  apply (record_race_keeps_integrity null_user (fresh_connection empty_db) clone_race).
  split; intros rid uid [row H]; cbn in H; by rewrite lookup_empty in H.
Defined.

(** ** The latest registered daily *)

Lemma elem_of_registered_ids (d : db) (discord_id daily_type k : Z) :
  k ∈ (λ kv : Z * Z * Z * daily_race_row, kv.1.1.2) <$>
      List.filter
        (λ kv : Z * Z * Z * daily_race_row,
           (kv.1.1.1 =? discord_id) && (kv.1.2 =? daily_type))
        (map_to_list (daily_races d))
  ↔ is_Some (daily_races d !! (discord_id, k, daily_type)).
Proof.
  rewrite list_elem_of_fmap. split.
  - intros ([[[u k'] t] row] & -> & H). cbn.
    apply elem_of_bool_filter in H as [H Hf]. cbn in Hf.
    apply andb_true_iff in Hf as [Hu Ht].
    apply Z.eqb_eq in Hu, Ht. subst.
    apply elem_of_map_to_list in H. by eexists.
  - intros [row H]. exists (discord_id, k, daily_type, row). split; [done|].
    apply elem_of_bool_filter. split; [by apply elem_of_map_to_list|].
    cbn. by rewrite !Z.eqb_refl.
Qed.

Lemma registered_ids_cases (d : db) (discord_id daily_type : Z) :
  let ids := (λ kv : Z * Z * Z * daily_race_row, kv.1.1.2) <$>
             List.filter
               (λ kv : Z * Z * Z * daily_race_row,
                  (kv.1.1.1 =? discord_id) && (kv.1.2 =? daily_type))
               (map_to_list (daily_races d)) in
  (ids = [] ∧ ∀ k, daily_races d !! (discord_id, k, daily_type) = None) ∨
  (∃ x l, ids = x :: l ∧
          is_Some (daily_races d !! (discord_id, foldr Z.max x l, daily_type)) ∧
          ∀ k, is_Some (daily_races d !! (discord_id, k, daily_type)) →
               k ≤ foldr Z.max x l).
Proof.
  cbn zeta.
  pose proof (elem_of_registered_ids d discord_id daily_type) as Hids.
  destruct (_ <$> List.filter _ _) as [|x l].
  - left. split; [done|].
    intros k. destruct (daily_races d !! _) eqn:E; [exfalso|done].
    eapply not_elem_of_nil. apply Hids. by eexists.
  - right. exists x, l. split; [done|]. split.
    + apply Hids. apply foldr_max_elem.
    + intros k Hk. apply Hids in Hk.
      destruct (foldr_max_ge x l) as [H1 H2].
      apply elem_of_cons in Hk as [->|Hk]; [done|].
      rewrite Forall_forall in H2. by apply H2.
Qed.

Lemma registered_daily_run (c : connection) (discord_id daily_type : Z) :
  registered_daily discord_id daily_type c =
  (match (λ kv : Z * Z * Z * daily_race_row, kv.1.1.2) <$>
         List.filter
           (λ kv : Z * Z * Z * daily_race_row,
              (kv.1.1.1 =? discord_id) && (kv.1.2 =? daily_type))
           (map_to_list (daily_races (session c)))
   with
   | [] => Raised TypeError
   | x :: l => Returned (foldr Z.max x l)
   end, c).
Proof.
  unfold registered_daily. run_scope.
  erewrite fetching_largest by reflexivity. by destruct c.
Qed.

(** The sibling of [submitted_daily]: for a user who has rows of the type,
    [registered_daily] returns the largest [daily_id] among them.  For a
    user who has none it raises [TypeError]: [cursor.rowcount] is -1 before
    a row is fetched, so the [else 0] is never taken and [fetchone()[0]]
    subscripts [None].  The connection is left as it was. *)
Theorem registered_daily_latest (c : connection) (discord_id daily_type : Z) :
  ((∀ k, daily_races (session c) !! (discord_id, k, daily_type) = None) ∧
   registered_daily discord_id daily_type c = (Raised TypeError, c)) ∨
  (∃ n, registered_daily discord_id daily_type c = (Returned n, c) ∧
        is_Some (daily_races (session c) !! (discord_id, n, daily_type)) ∧
        ∀ k, is_Some (daily_races (session c) !! (discord_id, k, daily_type)) →
             k ≤ n).
Proof.
  rewrite registered_daily_run.
  destruct (registered_ids_cases (session c) discord_id daily_type)
    as [[-> Hnone]|(x & l & -> & Hrow & Hmax)].
  - by left.
  - right. by exists (foldr Z.max x l).
Qed.

(** ** The leaderboard's order and length *)

(** [get_fastest_times_leaderboard] returns at most [limit] rows, in
    ascending order of time, and leaves the connection as it was. *)
Theorem leaderboard_sorted_and_bounded (c : connection)
    (character_name : string) (amplified : bool) (limit : nat) :
  ∃ rows,
    get_fastest_times_leaderboard character_name amplified limit c =
      (Returned rows, c) ∧
    (length rows ≤ limit)%nat ∧
    StronglySorted (key_le (λ row : leaderboard_row, row.1.1.2)) rows.
Proof.
  unfold get_fastest_times_leaderboard, select_fastest_times. run_scope.
  eexists. split; [by destruct c|]. split.
  - rewrite length_take. lia.
  - eapply StronglySorted_app_1_l.
    rewrite take_drop. apply sort_by_key_sorted.
Qed.

(** ** The texts of the other statements *)

Lemma get_all_users_sql_accepted discord_id discord_name twitch_name rtmp_name :
  accepted (get_all_users_sql discord_id discord_name twitch_name rtmp_name) = true.
Proof.
  destruct discord_id, discord_name, twitch_name, rtmp_name;
    vm_compute; reflexivity.
Qed.

Lemma get_discord_id_sql_accepted : accepted get_discord_id_sql = true.
Proof. vm_compute. reflexivity. Qed.

Lemma set_prefs_sql_accepted : accepted set_prefs_sql = true.
Proof. vm_compute. reflexivity. Qed.

Lemma register_all_users_sql_accepted : accepted register_all_users_sql = true.
Proof. vm_compute. reflexivity. Qed.

Lemma get_all_ids_matching_prefs_sql_accepted user_prefs :
  accepted (get_all_ids_matching_prefs_sql user_prefs) = true.
Proof.
  destruct user_prefs as [[[]|] [[]|]]; vm_compute; reflexivity.
Qed.

Lemma get_largest_race_number_sql_accepted :
  accepted get_largest_race_number_sql = true.
Proof. vm_compute. reflexivity. Qed.

Lemma create_daily_sql_accepted : accepted create_daily_sql = true.
Proof. vm_compute. reflexivity. Qed.

Lemma register_daily_message_sql_accepted :
  accepted register_daily_message_sql = true.
Proof. vm_compute. reflexivity. Qed.

Lemma get_daily_message_id_sql_accepted : accepted get_daily_message_id_sql = true.
Proof. vm_compute. reflexivity. Qed.

Lemma get_daily_seed_sql_accepted : accepted get_daily_seed_sql = true.
Proof. vm_compute. reflexivity. Qed.

Lemma get_daily_times_sql_accepted : accepted get_daily_times_sql = true.
Proof. vm_compute. reflexivity. Qed.

Lemma get_allzones_race_numbers_sql_accepted amplified :
  accepted (get_allzones_race_numbers_sql amplified) = true.
Proof. destruct amplified; vm_compute; reflexivity. Qed.

Lemma get_all_racedata_sql_accepted amplified :
  accepted (get_all_racedata_sql amplified) = true.
Proof. destruct amplified; vm_compute; reflexivity. Qed.

#[local] Hint Rewrite
  get_all_users_sql_accepted get_discord_id_sql_accepted set_prefs_sql_accepted
  register_all_users_sql_accepted get_all_ids_matching_prefs_sql_accepted
  get_largest_race_number_sql_accepted create_daily_sql_accepted
  register_daily_message_sql_accepted get_daily_message_id_sql_accepted
  get_daily_seed_sql_accepted get_daily_times_sql_accepted
  get_allzones_race_numbers_sql_accepted get_all_racedata_sql_accepted : sql.

Ltac run_daily_scope :=
  unfold DBConnect_daily, execute_daily;
  autorewrite with sql; cbn [fst snd].

(** ** Looking users up *)

Lemma text_is_true v filter :
  text_is v filter = true ↔ ∀ x, filter = Some x → v = Some x.
Proof.
  destruct filter as [x|]; cbn.
  - rewrite bool_decide_eq_true. split; [by intros -> y [= <-] | auto].
  - split; [by intros _ x [=] | done].
Qed.

(** [get_all_users] returns, each once, the users that pass every filter
    that is given, so all users when none is given; a filter on a text
    column passes no user whose column is NULL.  It raises nothing and
    leaves the connection as it was. *)
Theorem get_all_users_filters (c : connection) (discord_id : option Z)
    (discord_name twitch_name rtmp_name : option string) :
  ∃ rows,
    get_all_users discord_id discord_name twitch_name rtmp_name c =
      (Returned rows, c) ∧
    NoDup rows.*1 ∧
    ∀ id u,
      (id, u) ∈ rows ↔
      user_data (session c) !! id = Some u ∧
      (∀ i, discord_id = Some i → id = i) ∧
      (∀ n, discord_name = Some n → u_name u = Some n) ∧
      (∀ n, twitch_name = Some n → u_twitch_name u = Some n) ∧
      (∀ n, rtmp_name = Some n → u_rtmp_name u = Some n).
Proof.
  unfold get_all_users, select_users. run_scope.
  eexists. split; [by destruct c|]. split.
  - apply NoDup_fmap_fst.
    + intros k u1 u2 H1 H2.
      apply elem_of_bool_filter in H1 as [H1 _], H2 as [H2 _].
      apply elem_of_map_to_list in H1, H2. congruence.
    + apply NoDup_ListNoDup, List.NoDup_filter, NoDup_ListNoDup.
      apply NoDup_map_to_list.
  - intros id u. rewrite elem_of_bool_filter, elem_of_map_to_list.
    unfold user_matches. cbn.
    rewrite !andb_true_iff, !text_is_true.
    split; intros (Hrow & H); (split; [done|]).
    + destruct H as [[[Hid ?] ?] ?]. repeat split; try done.
      intros i ->. by apply Z.eqb_eq.
    + destruct H as (Hid & ? & ? & ?). repeat split; try done.
      destruct discord_id as [i|]; [|done]. apply Z.eqb_eq. by apply Hid.
Qed.

Lemma elem_of_ids_of_name (d : db) (discord_name : string) (id : Z) :
  id ∈ (List.filter
          (λ kv : Z * user_row, text_is (u_name kv.2) (Some discord_name))
          (map_to_list (user_data d))).*1
  ↔ ∃ u, user_data d !! id = Some u ∧ u_name u = Some discord_name.
Proof.
  rewrite list_elem_of_fmap. split.
  - intros ([k u] & -> & H). apply elem_of_bool_filter in H as [H Hn].
    apply elem_of_map_to_list in H. cbn in Hn.
    apply bool_decide_eq_true in Hn. by exists u.
  - intros (u & Hu & Hn). exists (id, u). split; [done|].
    apply elem_of_bool_filter. split; [by apply elem_of_map_to_list|].
    cbn. by apply bool_decide_eq_true.
Qed.

Lemma get_discord_id_run (c : connection) (discord_name : string) :
  get_discord_id discord_name c =
  (match (List.filter
            (λ kv : Z * user_row, text_is (u_name kv.2) (Some discord_name))
            (map_to_list (user_data (session c)))).*1
   with
   | [] => Raised TypeError
   | [id] => Returned (Some id)
   | _ :: _ :: _ => Raised InternalError
   end, c).
Proof.
  unfold get_discord_id, select_discord_ids, fetching. run_scope.
  destruct c as [cm ss]; cbn.
  by destruct ((List.filter _ _).*1) as [|x [|y l]].
Qed.

Lemma ids_of_name_NoDup (d : db) (discord_name : string) :
  NoDup (List.filter
           (λ kv : Z * user_row, text_is (u_name kv.2) (Some discord_name))
           (map_to_list (user_data d))).*1.
Proof.
  apply NoDup_fmap_fst.
  - intros k u1 u2 H1 H2.
    apply elem_of_bool_filter in H1 as [H1 _], H2 as [H2 _].
    apply elem_of_map_to_list in H1, H2. congruence.
  - apply NoDup_ListNoDup, List.NoDup_filter, NoDup_ListNoDup.
    apply NoDup_map_to_list.
Qed.

Lemma only_element {A} (l : list A) (a : A) :
  NoDup l → a ∈ l → (∀ x, x ∈ l → x = a) → l = [a].
Proof.
  intros Hnd Ha Hall. destruct l as [|x [|y l]].
  - by apply elem_of_nil in Ha.
  - f_equal. apply Hall. left.
  - exfalso. apply NoDup_cons in Hnd as [Hx _]. apply Hx.
    rewrite (Hall x) by left. rewrite <- (Hall y) by (right; left). left.
Qed.


(** After [register_user], [get_discord_id] of the member's name returns
    the member's id, when no other user has that name. *)
Theorem get_discord_id_after_register_user (default_user : user_row)
    (c : connection) (member : Member) :
  (∀ id u, id ≠ member_id member →
           user_data (session c) !! id = Some u →
           u_name u ≠ Some (member_name member)) →
  (get_discord_id (member_name member)
     (register_user default_user member c).2).1 = Returned (Some (member_id member)).
Proof.
  intros Hothers. rewrite get_discord_id_run. cbn [fst].
  set (d := session (register_user default_user member c).2).
  rewrite (only_element _ (member_id member)); [done| | |].
  - apply ids_of_name_NoDup.
  - apply elem_of_ids_of_name. subst d.
    unfold register_user, upsert_user_name. run_scope. cbn.
    rewrite lookup_insert_eq. by eexists.
  - intros id (u & Hu & Hn)%elem_of_ids_of_name.
    destruct (decide (id = member_id member)) as [|Hne]; [done|exfalso].
    revert Hu. subst d.
    unfold register_user, upsert_user_name. run_scope. cbn.
    rewrite lookup_insert_ne by done. intros Hu. by apply (Hothers id u).
Qed.

(** User 7 registers on a store whose only user is 7. *)
Lemma get_discord_id_after_register_user_witness :
  (get_discord_id "necro"
     (register_user null_user
        {| member_id := 7; member_name := "necro"; member_display_name := "N" |}
        (fresh_connection sample_db)).2).1 = Returned (Some 7).
Proof.
  apply (get_discord_id_after_register_user null_user (fresh_connection sample_db)
           {| member_id := 7; member_name := "necro"; member_display_name := "N" |}).
  intros id u Hne Hu. cbn in Hu.
  rewrite lookup_insert_ne in Hu by done. by rewrite lookup_empty in Hu.
Defined.

(** ** Preferences: merging and matching *)

Lemma get_prefs_result (c : connection) (discord_id : Z) :
  get_prefs discord_id c =
  (match user_data (session c) !! discord_id with
   | Some u => Returned {| daily_alert := Some (u_daily_alert u);
                           race_alert := Some (u_race_alert u) |}
   | None => Raised TypeError
   end, c).
Proof.
  unfold get_prefs, select_prefs. run_scope. destruct c as [cm ss]; cbn.
  by destruct (user_data ss !! discord_id).
Qed.

(** [set_prefs] never creates a row: for a user without row the
    [get_prefs] it starts with raises [TypeError] and nothing is written.
    For a user with a row it returns and commits; the row takes the two
    flags of [stored.merge_prefs(given)], [stored] being the flags it had,
    and keeps its other columns; the other rows and tables are as they
    were. *)
Theorem set_prefs_needs_a_row (default_user : user_row)
    (merge_prefs : UserPrefs → UserPrefs → UserPrefs)
    (flag_column : option bool → bool)
    (c : connection) (discord_id : Z) (user_prefs : UserPrefs) :
  let result := set_prefs default_user merge_prefs flag_column
                  discord_id user_prefs c in
  match user_data (session c) !! discord_id with
  | None => result = (Raised TypeError, c)
  | Some u =>
      let stored := {| daily_alert := Some (u_daily_alert u);
                       race_alert := Some (u_race_alert u) |} in
      let new_user_prefs := merge_prefs stored user_prefs in
      result.1 = Returned () ∧
      committed result.2 = session result.2 ∧
      session result.2 =
        with_user_data
          (insert discord_id
             (set_u_alerts (flag_column (daily_alert new_user_prefs))
                (flag_column (race_alert new_user_prefs)) u))
          (session c)
  end.
Proof.
  cbn zeta. unfold set_prefs. rewrite get_prefs_result.
  destruct (user_data (session c) !! discord_id) as [u|] eqn:Hu; [|done].
  unfold upsert_user_prefs, with_user_data. run_scope. cbn beta.
  by rewrite Hu.
Qed.

(** [get_all_ids_matching_prefs] returns the ids of the users whose flags
    equal every flag the record specifies, and no id at all for a record
    that specifies nothing; it raises nothing and leaves the connection as
    it was. *)
Theorem get_all_ids_matching_prefs_matches (c : connection)
    (user_prefs : UserPrefs) :
  ∃ ids,
    get_all_ids_matching_prefs user_prefs c = (Returned ids, c) ∧
    NoDup ids ∧
    ∀ id,
      id ∈ ids ↔
      is_empty user_prefs = false ∧
      ∃ u, user_data (session c) !! id = Some u ∧
           (∀ b, daily_alert user_prefs = Some b → u_daily_alert u = b) ∧
           (∀ b, race_alert user_prefs = Some b → u_race_alert u = b).
Proof.
  unfold get_all_ids_matching_prefs.
  destruct (is_empty user_prefs) eqn:He.
  - exists []. split; [done|]. split; [constructor|].
    intros id. split; [by intros ?%elem_of_nil | by intros [? _]].
  - unfold select_ids_matching_prefs. run_scope.
    eexists. split; [by destruct c|]. split.
    + apply NoDup_fmap_fst.
      * intros k u1 u2 H1 H2.
        apply elem_of_bool_filter in H1 as [H1 _], H2 as [H2 _].
        apply elem_of_map_to_list in H1, H2. congruence.
      * apply NoDup_ListNoDup, List.NoDup_filter, NoDup_ListNoDup.
        apply NoDup_map_to_list.
    + intros id. rewrite list_elem_of_fmap. split.
      * intros ([k u] & -> & H). apply elem_of_bool_filter in H as [H Hf].
        apply elem_of_map_to_list in H. cbn in Hf.
        apply andb_true_iff in Hf as [Hd Hr].
        split; [done|]. exists u. split; [done|]. split.
        -- intros b Hb. rewrite Hb in Hd. by apply bool_decide_eq_true in Hd.
        -- intros b Hb. rewrite Hb in Hr. by apply bool_decide_eq_true in Hr.
      * intros (_ & u & Hu & Hd & Hr). exists (id, u). split; [done|].
        apply elem_of_bool_filter. split; [by apply elem_of_map_to_list|].
        cbn. apply andb_true_iff. split.
        -- destruct (daily_alert user_prefs) as [b|]; [|done].
           apply bool_decide_eq_true. by apply Hd.
        -- destruct (race_alert user_prefs) as [b|]; [|done].
           apply bool_decide_eq_true. by apply Hr.
Qed.

(** ** Bulk registration *)

Lemma last_display_name_cons id m members :
  last_display_name id (m :: members) =
  if member_id m =? id
  then Some (default (member_display_name m) (last_display_name id members))
  else last_display_name id members.
Proof.
  unfold last_display_name. cbn.
  destruct (member_id m =? id); [|done].
  cbn [fmap list_fmap]. rewrite last_cons.
  by destruct (last _).
Qed.

Lemma register_members_rows default_user members : ∀ d,
  ∃ d',
    register_members default_user members d = (Returned (), d') ∧
    race_data d' = race_data d ∧ racer_data d' = racer_data d ∧
    daily_races d' = daily_races d ∧ ladder_data d' = ladder_data d ∧
    ∀ id,
      user_data d' !! id =
      match last_display_name id members with
      | Some n => Some (set_u_name (Some n) (default default_user (user_data d !! id)))
      | None => user_data d !! id
      end.
Proof.
  induction members as [|m members IH]; intros d.
  - exists d. by repeat split.
  - cbn [register_members]. unfold upsert_user_name at 1. run_scope.
    destruct (IH (with_user_data
                    (λ t, <[member_id m :=
                              set_u_name (Some (member_display_name m))
                                (default default_user (t !! member_id m))]> t) d))
      as (d' & -> & H1 & H2 & H3 & H4 & Hrows).
    exists d'. split; [done|]. repeat (split; [done|]).
    intros id. rewrite Hrows, last_display_name_cons. cbn.
    destruct (decide (member_id m = id)) as [<-|Hne].
    + rewrite Z.eqb_refl, lookup_insert_eq. cbn.
      destruct (last_display_name (member_id m) members); [|done].
      by rewrite set_u_name_twice.
    + rewrite lookup_insert_ne by done.
      apply Z.eqb_neq in Hne. by rewrite Hne.
Qed.

(** [register_all_users] raises nothing and commits.  Every user who is
    among the members has a row afterwards: its name is the display name of
    the last member of that id, and its other columns are those the row had
    (the column defaults for a new row).  The rows of the users who are not
    among the members and the other tables are as they were. *)
Theorem register_all_users_names (default_user : user_row) (c : connection)
    (members : list Member) :
  let result := register_all_users default_user members c in
  result.1 = Returned () ∧
  committed result.2 = session result.2 ∧
  race_data (session result.2) = race_data (session c) ∧
  racer_data (session result.2) = racer_data (session c) ∧
  daily_races (session result.2) = daily_races (session c) ∧
  ladder_data (session result.2) = ladder_data (session c) ∧
  ∀ id,
    user_data (session result.2) !! id =
    match last_display_name id members with
    | Some n =>
        Some (set_u_name (Some n)
                (default default_user (user_data (session c) !! id)))
    | None => user_data (session c) !! id
    end.
Proof.
  cbn zeta. unfold register_all_users, DBConnect.
  destruct (register_members_rows default_user members (session c))
    as (d' & -> & H). cbn. by repeat split; try apply H.
Qed.

(** ** Daily definitions *)

(** [create_daily] is no upsert: once a daily of the key exists, whether
    the first call made it or found it, [create_daily] on the key raises
    [IntegrityError] and leaves the table, seed and message of the existing
    row included, as it was. *)
Theorem create_daily_twice_raises (c : daily_connection)
    (daily_id daily_type seed message_id seed' message_id' : Z) :
  let c1 := (create_daily daily_id daily_type seed message_id c).2 in
  let result := create_daily daily_id daily_type seed' message_id' c1 in
  is_Some (dd_session c1 !! (daily_id, daily_type)) ∧
  result.1 = Raised IntegrityError ∧
  dd_session result.2 = dd_session c1 ∧
  dd_committed result.2 = dd_session c1.
Proof.
  cbn zeta. unfold create_daily, insert_daily_data. run_daily_scope.
  destruct (dd_session c !! (daily_id, daily_type)) as [row|] eqn:E; cbn.
  - rewrite E. cbn. split; [by eexists | done].
  - rewrite lookup_insert_eq. cbn. split; [by eexists | done].
Qed.

(** A daily created under a key that was free is read back:
    [get_daily_seed] returns the one row with its seed and
    [get_daily_message_id] its message id. *)
Theorem create_daily_read_back (c : daily_connection)
    (daily_id daily_type seed message_id : Z) :
  dd_session c !! (daily_id, daily_type) = None →
  let c1 := (create_daily daily_id daily_type seed message_id c).2 in
  (create_daily daily_id daily_type seed message_id c).1 = Returned () ∧
  (get_daily_seed daily_id daily_type c1).1 = Returned [seed] ∧
  (get_daily_message_id daily_id daily_type c1).1 = Returned message_id.
Proof.
  intros Hfree. cbn zeta.
  unfold create_daily, get_daily_seed, get_daily_message_id,
    insert_daily_data, select_daily_column.
  run_daily_scope. rewrite Hfree. cbn. by rewrite lookup_insert_eq.
Qed.

Lemma create_daily_read_back_witness :
  let c1 := (create_daily 12 0 777 0
               {| dd_committed := ∅; dd_session := ∅ |}).2 in
  (create_daily 12 0 777 0 {| dd_committed := ∅; dd_session := ∅ |}).1 =
    Returned () ∧
  (get_daily_seed 12 0 c1).1 = Returned [777] ∧
  (get_daily_message_id 12 0 c1).1 = Returned 0.
Proof.
  apply (create_daily_read_back {| dd_committed := ∅; dd_session := ∅ |} 12 0 777 0).
  reflexivity.
Defined.

(** [register_daily_message] raises nothing.  On a daily that exists it
    sets the message id, which [get_daily_message_id] then returns, and
    keeps the seed; on a daily that does not exist it creates no row, and
    [get_daily_message_id] raises [TypeError] ([cursor.rowcount] is -1
    before a row is fetched, so the [else 0] is never taken).  The other
    dailies are as they were. *)
Theorem register_daily_message_sets_message (c : daily_connection)
    (daily_id daily_type message_id : Z) :
  let result := register_daily_message daily_id daily_type message_id c in
  result.1 = Returned () ∧
  dd_committed result.2 = dd_session result.2 ∧
  (∀ key, key ≠ (daily_id, daily_type) →
          dd_session result.2 !! key = dd_session c !! key) ∧
  dd_session result.2 !! (daily_id, daily_type) =
    (λ row, {| dd_seed := dd_seed row; dd_msg_id := message_id |})
      <$> dd_session c !! (daily_id, daily_type) ∧
  (get_daily_message_id daily_id daily_type result.2).1 =
    match dd_session c !! (daily_id, daily_type) with
    | Some _ => Returned message_id
    | None => Raised TypeError
    end ∧
  (get_daily_seed daily_id daily_type result.2).1 =
    (get_daily_seed daily_id daily_type c).1.
Proof.
  cbn zeta. unfold register_daily_message, get_daily_message_id, get_daily_seed,
    update_daily_message, select_daily_column, fetching_daily.
  run_daily_scope. cbn. rewrite lookup_alter_eq.
  split; [done|]. split; [done|]. split.
  - intros key Hkey. by rewrite lookup_alter_ne.
  - by destruct (dd_session c !! (daily_id, daily_type)).
Qed.

(** ** The largest race number of a user *)

Lemma order_by_desc_limit_1_max (l : list Z) (m : Z) :
  m ∈ l → (∀ x, x ∈ l → x ≤ m) → order_by_desc_limit_1 l = [m].
Proof.
  intros Hm Hle. destruct l as [|x l]; [by apply elem_of_nil in Hm|].
  cbn. f_equal.
  destruct (foldr_max_ge x l) as [H1 H2]. rewrite Forall_forall in H2.
  pose proof (foldr_max_elem x l) as Hin.
  apply Hle in Hin. apply elem_of_cons in Hm as [->|Hm]; [lia|].
  apply H2 in Hm. lia.
Qed.

Lemma elem_of_race_ids_of (d : db) (discord_id race_id : Z) :
  race_id ∈ (λ kv : Z * Z * racer_row, kv.1.1) <$>
            List.filter (λ kv : Z * Z * racer_row, kv.1.2 =? discord_id)
              (map_to_list (racer_data d))
  ↔ is_Some (racer_data d !! (race_id, discord_id)).
Proof.
  rewrite list_elem_of_fmap. split.
  - intros ([[r u] row] & -> & H). apply elem_of_bool_filter in H as [H Hu].
    cbn in *. apply Z.eqb_eq in Hu. subst.
    apply elem_of_map_to_list in H. by eexists.
  - intros [row H]. exists (race_id, discord_id, row). split; [done|].
    apply elem_of_bool_filter. split; [by apply elem_of_map_to_list|].
    cbn. apply Z.eqb_refl.
Qed.

Lemma get_largest_race_number_run (c : connection) (discord_id : Z) :
  get_largest_race_number discord_id c =
  (match (λ kv : Z * Z * racer_row, kv.1.1) <$>
         List.filter (λ kv : Z * Z * racer_row, kv.1.2 =? discord_id)
           (map_to_list (racer_data (session c)))
   with
   | [] => Raised TypeError
   | x :: l => Returned (foldr Z.max x l)
   end, c).
Proof.
  unfold get_largest_race_number. run_scope.
  erewrite fetching_largest by reflexivity. by destruct c.
Qed.

(** For a user who has results, [get_largest_race_number] returns the
    largest id of a race the user has a result in.  For a user who has none
    it raises [TypeError]: [cursor.rowcount] is -1 before a row is fetched,
    so the [else 0] is never taken and [fetchone()[0]] subscripts [None].
    The connection is left as it was. *)
Theorem get_largest_race_number_latest (c : connection) (discord_id : Z) :
  ((∀ race_id, racer_data (session c) !! (race_id, discord_id) = None) ∧
   get_largest_race_number discord_id c = (Raised TypeError, c)) ∨
  (∃ n, get_largest_race_number discord_id c = (Returned n, c) ∧
        is_Some (racer_data (session c) !! (n, discord_id)) ∧
        ∀ race_id, is_Some (racer_data (session c) !! (race_id, discord_id)) →
                   race_id ≤ n).
Proof.
  rewrite get_largest_race_number_run.
  pose proof (elem_of_race_ids_of (session c) discord_id) as Hids.
  destruct (_ <$> List.filter _ _) as [|x l].
  - left. split; [|done].
    intros k. destruct (racer_data (session c) !! _) eqn:E; [exfalso|done].
    eapply not_elem_of_nil. apply Hids. by eexists.
  - right. exists (foldr Z.max x l). split; [done|]. split.
    + apply Hids. apply foldr_max_elem.
    + intros k Hk. apply Hids in Hk.
      destruct (foldr_max_ge x l) as [H1 H2].
      apply elem_of_cons in Hk as [->|Hk]; [done|].
      rewrite Forall_forall in H2. by apply H2.
Qed.

(** After a race of racers with distinct ids is recorded on a store whose
    results all belong to races, the largest race number of every racer of
    the race is the id the race was given. *)
Theorem get_largest_race_number_after_record_race (default_user : user_row)
    (c : connection) (race : Race) (racer : Racer) :
  NoDup (racer_id <$> racers race) →
  results_have_race (session c) →
  racer ∈ racers race →
  (get_largest_race_number (racer_id racer)
     (record_race default_user race c).2).1 = Returned (next_race_id (session c)).
Proof.
  intros Hids Hinv Hin.
  set (new := next_race_id (session c)).
  set (s := sort_by_key (sort_key (max_time_of (racers race))) (racers race)).
  destruct (record_racers_returns default_user new s 1
              (with_race_data (insert new (race_params race)) (session c)))
    as (d' & Hrun & _ & Hrows & Hframe).
  { unfold s. by rewrite sort_by_key_perm. }
  { intros r _. cbn.
    destruct (racer_data (session c) !! (new, racer_id r)) eqn:E; [exfalso|done].
    destruct (Hinv new (racer_id r)) as [row Hrow]; [by eexists|].
    unfold new in Hrow. by rewrite next_race_id_fresh in Hrow. }
  unfold record_race, DBConnect.
  rewrite record_race_body_unfold. fold new s. rewrite Hrun. cbn [snd].
  unfold get_largest_race_number, select_race_ids_of, fetching. run_scope.
  rewrite (order_by_desc_limit_1_max _ new); [done| |].
  - apply elem_of_race_ids_of. cbn.
    assert (racer ∈ s) as Hs by (unfold s; by rewrite sort_by_key_perm).
    apply list_elem_of_split in Hs as (l1 & l2 & Hs).
    rewrite (Hrows l1 racer l2 Hs). by eexists.
  - intros x Hx. apply elem_of_race_ids_of in Hx. cbn in Hx.
    destruct (decide (x = new)) as [->|Hne]; [done|].
    rewrite Hframe in Hx by (intros r _ [=]; done).
    cbn in Hx. apply Hinv in Hx. apply next_race_id_above in Hx.
    unfold new. lia.
Qed.

Lemma get_largest_race_number_after_record_race_witness :
  (get_largest_race_number 3
     (record_race null_user podium_race (fresh_connection tied_store)).2).1 =
  Returned 3.
Proof.
  apply (get_largest_race_number_after_record_race null_user
           (fresh_connection tied_store) podium_race (mk_racer 3 "third" 30 true)).
  - apply (bool_decide_unpack _). vm_compute. exact I.
  - intros rid uid [row H]. revert H. unfold tied_store.
    destruct (decide (uid = 1)) as [->|Hne].
    + destruct (decide (rid = 0 ∨ rid = 1 ∨ rid = 2)) as [[->|[->| ->]]|Hno];
        [intros _; vm_compute; eauto..|].
      intros H. exfalso.
      apply elem_of_map_to_list in H. revert H. vm_compute.
      intros H. repeat (apply elem_of_cons in H as [[=]|H]); try lia.
      by apply elem_of_nil in H.
    + intros H. exfalso.
      apply elem_of_map_to_list in H. revert H. vm_compute.
      intros H. repeat (apply elem_of_cons in H as [[=]|H]); try lia.
      by apply elem_of_nil in H.
  - vm_compute. right. left.
Defined.

(** ** Ordering by two columns *)

Section TwoKeys.

Context {A : Type} (k1 k2 : A → Z).

Lemma StronglySorted_weaken (R R' : A → A → Prop) l :
  (∀ a b, R a b → R' a b) → StronglySorted R l → StronglySorted R' l.
Proof.
  intros HR. induction 1 as [|x l Hs IH Hx]; constructor; [done|].
  eapply Forall_impl; [exact Hx | exact (HR x)].
Qed.

Lemma insert_by_key_lex x s :
  StronglySorted (lex_le k1 k2) s →
  Forall (λ y, k1 x ≤ k1 y) s →
  StronglySorted (lex_le k1 k2) (insert_by_key k2 x s).
Proof.
  induction 1 as [|y s Hs IH Hy]; intros Hx; cbn.
  - repeat constructor.
  - apply Forall_cons in Hx as [Hxy Hx].
    destruct (k2 x <=? k2 y) eqn:E.
    + apply Z.leb_le in E. constructor; [by constructor|].
      constructor; [unfold lex_le; lia|].
      rewrite Forall_forall in Hy, Hx |- *. intros z Hz.
      specialize (Hy z Hz). specialize (Hx z Hz). unfold lex_le in *. lia.
    + apply Z.leb_gt in E. constructor; [by apply IH|].
      rewrite insert_by_key_perm. constructor; [unfold lex_le; lia | done].
Qed.

(** Sorting by [k2] a list that is sorted by [k1] orders it by both. *)
Lemma sort_by_key_lex l :
  StronglySorted (key_le k1) l → StronglySorted (lex_le k1 k2) (sort_by_key k2 l).
Proof.
  induction 1 as [|x l Hs IH Hx]; cbn; [constructor|].
  apply insert_by_key_lex; [done|].
  by rewrite sort_by_key_perm.
Qed.

End TwoKeys.

(** ** Times of a daily *)

Lemma daily_times_rows_length (d : db) (daily_id daily_type : Z) :
  length (daily_times_rows d daily_id daily_type) =
  length (List.filter
            (λ kv : Z * Z * Z * daily_race_row,
               (kv.1.1.2 =? daily_id) && (kv.1.2 =? daily_type)
               && bool_decide (is_Some (user_data d !! kv.1.1.1)))
            (map_to_list (daily_races d))).
Proof.
  unfold daily_times_rows.
  induction (map_to_list (daily_races d)) as [|kv l IH]; [done|].
  cbn [omap list_omap List.filter].
  destruct ((kv.1.1.2 =? daily_id) && (kv.1.2 =? daily_type));
    cbn [andb]; [|exact IH].
  destruct (user_data d !! kv.1.1.1) as [u|].
  - rewrite bool_decide_eq_true_2 by (by eexists). cbn [length].
    f_equal. exact IH.
  - rewrite bool_decide_eq_false_2 by (by intros [? [=]]). exact IH.
Qed.

(** [get_daily_times] returns one row [(name, level, time)] for every row
    of the daily in [daily_races] whose user has a [user_data] row, those
    of users who registered without submitting (level -1) included, and no
    other row: as many rows as there are such rows in [daily_races].  They
    come by level from the highest down and by time among equal levels.  It
    raises nothing and leaves the connection as it was. *)
Theorem get_daily_times_ordered (c : connection) (daily_id daily_type : Z) :
  ∃ rows,
    get_daily_times daily_id daily_type c = (Returned rows, c) ∧
    StronglySorted daily_time_le rows ∧
    rows ≡ₚ daily_times_rows (session c) daily_id daily_type ∧
    length rows =
      length (List.filter
                (λ kv : Z * Z * Z * daily_race_row,
                   (kv.1.1.2 =? daily_id) && (kv.1.2 =? daily_type)
                   && bool_decide (is_Some (user_data (session c) !! kv.1.1.1)))
                (map_to_list (daily_races (session c)))) ∧
    ∀ row,
      row ∈ rows ↔
      ∃ discord_id u r,
        daily_races (session c) !! (discord_id, daily_id, daily_type) = Some r ∧
        user_data (session c) !! discord_id = Some u ∧
        row = (u_name u, dr_level r, dr_time r).
Proof.
  unfold get_daily_times, select_daily_times. run_scope.
  eexists. split; [by destruct c|]. split; [|split; [|split]].
  - eapply (StronglySorted_weaken
              (lex_le (λ row : daily_time_row, row.2)
                      (λ row : daily_time_row, - row.1.2))).
    + intros a b. unfold lex_le, daily_time_le. lia.
    + apply sort_by_key_lex, sort_by_key_sorted.
  - by rewrite !sort_by_key_perm.
  - rewrite <- daily_times_rows_length. apply Permutation_length.
    by rewrite !sort_by_key_perm.
  - intros row. rewrite !sort_by_key_perm. unfold daily_times_rows.
    rewrite list_elem_of_omap. split.
    + intros ([[[u i] t] r] & Hin & Hrow). cbn in Hrow.
      apply elem_of_map_to_list in Hin.
      destruct ((i =? daily_id) && (t =? daily_type)) eqn:E; [|done].
      apply andb_true_iff in E as [Hi Ht]. apply Z.eqb_eq in Hi, Ht. subst.
      destruct (user_data (session c) !! u) as [usr|] eqn:Hu; [|done].
      injection Hrow as <-. by exists u, usr, r.
    + intros (u & usr & r & Hr & Hu & ->).
      exists (u, daily_id, daily_type, r). split; [by apply elem_of_map_to_list|].
      cbn. by rewrite !Z.eqb_refl, Hu.
Qed.

(** ** Counting the races of a user *)

Section GroupCount.

Context {K : Type} `{EqDecision K}.

Lemma counted_count_row (P : K → bool) (k : K) groups :
  counted P (count_row k groups) =
  (counted P groups + if P k then 1 else 0)%nat.
Proof.
  unfold counted. induction groups as [|[k' n] groups IH]; cbn.
  - destruct (P k); cbn; lia.
  - destruct (decide (k' = k)) as [->|Hne]; cbn.
    + destruct (P k); cbn; lia.
    + destruct (P k'); cbn; rewrite IH; lia.
Qed.

Lemma counted_group_count {A} (P : K → bool) (key : A → K) rows :
  counted P (group_count key rows) =
  length (List.filter (λ row, P (key row)) rows).
Proof.
  unfold group_count.
  assert (∀ acc, counted P (foldl (λ groups row, count_row (key row) groups)
                              acc rows) =
                 (counted P acc + length (List.filter (λ row, P (key row)) rows))%nat)
    as H; [|by rewrite H].
  induction rows as [|row rows IH]; intros acc.
  - cbn [foldl List.filter length]. lia.
  - cbn [foldl List.filter]. rewrite IH, counted_count_row.
    destruct (P (key row)); cbn [length]; lia.
Qed.

Lemma count_row_positive (k : K) groups :
  Forall (λ g : K * nat, (0 < g.2)%nat) groups →
  Forall (λ g : K * nat, (0 < g.2)%nat) (count_row k groups).
Proof.
  induction 1 as [|[k' n] groups Hn Hg IH]; cbn.
  - repeat constructor.
  - destruct (decide (k' = k)); constructor; cbn in *; (lia || done).
Qed.

Lemma group_count_positive {A} (key : A → K) rows :
  Forall (λ g : K * nat, (0 < g.2)%nat) (group_count key rows).
Proof.
  unfold group_count.
  assert (∀ acc, Forall (λ g : K * nat, (0 < g.2)%nat) acc →
                 Forall (λ g : K * nat, (0 < g.2)%nat)
                   (foldl (λ groups row, count_row (key row) groups) acc rows))
    as H; [|apply H; constructor].
  induction rows as [|row rows IH]; intros acc Hacc; cbn; [done|].
  by apply IH, count_row_positive.
Qed.

End GroupCount.

Lemma omap_cons_Some {A B} (f : A → option B) x y l :
  f x = Some y → omap f (x :: l) = y :: omap f l.
Proof. intros H. cbn. by rewrite H. Qed.

Lemma races_of_character_length (d : db) (discord_id : Z) (char_name : string)
    (amplified : bool) (rows : list (Z * Z * racer_row)) :
  length (List.filter
            (λ rc, String.eqb (race_group rc).1.1 char_name)
            (omap (race_of d)
               (List.filter (allzones_result d discord_id amplified) rows))) =
  length (List.filter
            (λ kv, allzones_result d discord_id amplified kv
                   && of_character d char_name kv) rows).
Proof.
  induction rows as [|row rows IH]; [done|].
  cbn [List.filter].
  destruct (allzones_result d discord_id amplified row) eqn:E; [|exact IH].
  assert (∃ rc, race_of d row = Some rc) as [rc Hrc].
  { unfold allzones_result in E. unfold race_of.
    destruct (race_data d !! row.1.1); [by eexists | done]. }
  rewrite (omap_cons_Some _ _ _ _ Hrc). cbn [andb List.filter].
  replace (of_character d char_name row)
    with (String.eqb (rc_character_name rc) char_name)
    by (unfold of_character; by rewrite Hrc).
  change ((race_group rc).1.1) with (rc_character_name rc).
  destruct (String.eqb (rc_character_name rc) char_name); cbn [length];
    by rewrite IH.
Qed.

(** [get_allzones_race_numbers] and [get_all_racedata] agree: for every
    character, the counts of the character's rows of the first add up to the
    number of rows the second returns for the character.  (A character has
    one row per value of [flags], the statement grouping by it.)  The counts
    are positive and come from the highest down.  Both raise nothing and
    leave the connection as it was. *)
Theorem race_numbers_match_racedata (c : connection) (discord_id : Z)
    (char_name : string) (amplified : bool) :
  ∃ numbers racedata,
    get_allzones_race_numbers discord_id amplified c = (Returned numbers, c) ∧
    get_all_racedata discord_id char_name amplified c = (Returned racedata, c) ∧
    races_counted char_name numbers = length racedata ∧
    Forall (λ row : string * nat, (0 < row.2)%nat) numbers ∧
    StronglySorted (λ a b : string * nat, (b.2 ≤ a.2)%nat) numbers.
Proof.
  unfold get_allzones_race_numbers, get_all_racedata,
    select_allzones_race_numbers, select_all_racedata.
  run_scope.
  eexists _, _. split; [by destruct c|]. split; [by destruct c|].
  set (rows := map_to_list (racer_data (session c))).
  set (groups := group_count race_group _).
  split; [|split].
  - unfold races_counted.
    rewrite (bool_filter_perm _ _ _ (sort_by_key_perm _ _)).
    rewrite length_fmap.
    transitivity (counted (λ k : string * string * Z, String.eqb k.1.1 char_name)
                    groups).
    { unfold counted. clear. induction groups as [|[[[ch ds] fl] n] groups IH];
        cbn; [done|].
      destruct (String.eqb ch char_name); cbn; by rewrite IH. }
    unfold groups. rewrite counted_group_count.
    apply races_of_character_length.
  - rewrite sort_by_key_perm. apply Forall_fmap.
    eapply Forall_impl; [apply group_count_positive|]. by intros [].
  - eapply StronglySorted_weaken; [|apply sort_by_key_sorted].
    intros a b. unfold key_le. lia.
Qed.

(** ** Most races *)

Lemma get_most_races_leaderboard_sql_accepted :
  accepted get_most_races_leaderboard_sql = true.
Proof. vm_compute. reflexivity. Qed.

#[local] Hint Rewrite get_most_races_leaderboard_sql_accepted : sql.

Section GroupTally.

Context {K : Type} `{EqDecision K}.

Lemma tally_row_keys (k : K) w groups :
  (tally_row k w groups).*1 =
  if decide (k ∈ groups.*1) then groups.*1 else groups.*1 ++ [k].
Proof.
  induction groups as [|[k' n] groups IH]; cbn.
  - by rewrite decide_False by apply not_elem_of_nil.
  - destruct (decide (k' = k)) as [->|Hne]; cbn.
    + by rewrite decide_True by left.
    + rewrite IH. destruct (decide (k ∈ groups.*1)) as [Hin|Hnin].
      * by rewrite decide_True by (by right).
      * rewrite decide_False; [done|].
        intros [|]%elem_of_cons; [congruence | done].
Qed.

Lemma tally_row_NoDup (k : K) w groups :
  NoDup groups.*1 → NoDup (tally_row k w groups).*1.
Proof.
  intros Hnd. rewrite tally_row_keys. case_decide; [done|].
  apply NoDup_app. split; [done|]. split; [|apply NoDup_singleton].
  intros x Hx ->%list_elem_of_singleton. done.
Qed.

Lemma group_tally_NoDup {A} (key : A → K) weight rows :
  NoDup (group_tally key weight rows).*1.
Proof.
  unfold group_tally.
  assert (∀ acc : list (K * (nat * nat)), NoDup acc.*1 →
            NoDup (foldl (λ groups row, tally_row (key row) (weight row) groups)
                     acc rows).*1) as H; [|apply H; constructor].
  induction rows as [|row rows IH]; intros acc Hacc; cbn; [done|].
  by apply IH, tally_row_NoDup.
Qed.

(** The two sums of all groups, added up. *)
Lemma tally_row_total (k : K) w groups :
  sum_list_with (λ g : K * (nat * nat), g.2.1 + g.2.2)%nat (tally_row k w groups) =
  (sum_list_with (λ g : K * (nat * nat), g.2.1 + g.2.2) groups + (w.1 + w.2))%nat.
Proof.
  induction groups as [|[k' n] groups IH]; cbn; [lia|].
  destruct (decide (k' = k)); cbn; [lia|]. rewrite IH. lia.
Qed.

Lemma group_tally_total {A} (key : A → K) (weight : A → nat * nat) rows :
  sum_list_with (λ g : K * (nat * nat), g.2.1 + g.2.2)%nat
    (group_tally key weight rows) =
  sum_list_with (λ row, (weight row).1 + (weight row).2)%nat rows.
Proof.
  unfold group_tally.
  assert (∀ acc,
            sum_list_with (λ g : K * (nat * nat), g.2.1 + g.2.2)%nat
              (foldl (λ groups row, tally_row (key row) (weight row) groups)
                 acc rows) =
            (sum_list_with (λ g : K * (nat * nat), g.2.1 + g.2.2) acc +
             sum_list_with (λ row, (weight row).1 + (weight row).2) rows)%nat)
    as H; [|by rewrite H].
  induction rows as [|row rows IH]; intros acc.
  - cbn [foldl sum_list_with]. lia.
  - cbn [foldl sum_list_with]. rewrite IH, tally_row_total. lia.
Qed.

End GroupTally.

Lemma dlc_weight_total character_name rc :
  ((dlc_weight character_name rc).1 + (dlc_weight character_name rc).2)%nat =
  if String.eqb (rc_character_name rc) character_name
     && String.eqb (rc_descriptor rc) "All-zones"
     && negb (rc_private rc)
  then 1%nat else 0%nat.
Proof.
  unfold dlc_weight, counts_as. cbn.
  destruct (String.eqb (rc_character_name rc) character_name),
    (String.eqb (rc_descriptor rc) "All-zones"),
    (rc_amplified rc), (rc_private rc); reflexivity.
Qed.

Lemma sum_list_with_pointwise {A} (f g : A → nat) (l : list A) :
  (∀ x, f x = g x) → sum_list_with f l = sum_list_with g l.
Proof. intros H. induction l as [|x l IH]; cbn; [done|]. by rewrite H, IH. Qed.

Lemma sum_of_tests {A} (f : A → bool) (l : list A) :
  sum_list_with (λ x, if f x then 1 else 0)%nat l = length (List.filter f l).
Proof.
  induction l as [|x l IH]; cbn; [done|].
  destruct (f x); cbn; by rewrite IH.
Qed.

(** [get_most_races_leaderboard] returns at most [limit] rows, one per
    user name, users of one name sharing a row, by total from the highest
    down; the total of a row is the sum of its two counts.  When fewer than
    [limit] rows come back, none was cut off, and the totals add up to the
    number of results in public All-zones races of the character among the
    results that have a user and a race.  It raises nothing and leaves the
    connection as it was. *)
Theorem get_most_races_leaderboard_totals (c : connection)
    (character_name : string) (limit : nat) :
  ∃ rows,
    get_most_races_leaderboard character_name limit c = (Returned rows, c) ∧
    (length rows ≤ limit)%nat ∧
    StronglySorted (λ a b : most_races_row, (b.1.1.2 ≤ a.1.1.2)%nat) rows ∧
    Forall (λ row : most_races_row, row.1.1.2 = (row.1.2 + row.2)%nat) rows ∧
    NoDup ((λ row : most_races_row, row.1.1.1) <$> rows) ∧
    ((length rows < limit)%nat →
     sum_list_with (λ row : most_races_row, row.1.1.2) rows =
     length (public_allzones_results (session c) character_name)).
Proof.
  unfold get_most_races_leaderboard, select_most_races. run_scope.
  set (groups := group_tally _ _ _).
  set (all := sort_by_key _ _).
  assert (all ≡ₚ (λ g : option string * (nat * nat),
                    (g.1, (g.2.1 + g.2.2)%nat, g.2.1, g.2.2)) <$> groups)
    as Hperm by apply sort_by_key_perm.
  eexists. split; [by destruct c|].
  split; [rewrite length_take; lia|]. split; [|split; [|split]].
  - eapply StronglySorted_weaken;
      [|eapply StronglySorted_app_1_l; rewrite take_drop;
        apply sort_by_key_sorted].
    intros a b. unfold key_le. lia.
  - apply Forall_take. rewrite Hperm. apply Forall_fmap, Forall_forall. by intros [k [n m]] _.
  - apply (sublist_NoDup _ ((λ row : most_races_row, row.1.1.1) <$> all)).
    + rewrite Hperm, <- list_fmap_compose.
      replace (_ <$> groups) with (groups.*1)
        by (apply list_fmap_ext; by intros i [k [n m]] _).
      apply (group_tally_NoDup (λ j : option string * race_row, j.1)).
    + apply fmap_sublist, sublist_take.
  - intros Hcut. rewrite length_take in Hcut.
    rewrite take_ge by lia. rewrite Hperm.
    transitivity (sum_list_with (λ g : option string * (nat * nat),
                                   (g.2.1 + g.2.2)%nat) groups).
    { clear. induction groups as [|g groups IH]; cbn; [done|]. by rewrite IH. }
    unfold groups. rewrite group_tally_total.
    unfold public_allzones_results. rewrite <- sum_of_tests.
    apply sum_list_with_pointwise. intros j. apply dlc_weight_total.
Qed.

(** ** The identities a race records *)

Lemma record_racers_users default_user new_raceid l : ∀ rank d d',
  NoDup (racer_id <$> l) →
  record_racers default_user new_raceid rank l d = (Returned (), d') →
  (∀ r, r ∈ l →
     user_data d' !! racer_id r =
     Some (set_u_name (Some (racer_name r))
             (default default_user (user_data d !! racer_id r)))) ∧
  (∀ id, (∀ r, r ∈ l → racer_id r ≠ id) →
     user_data d' !! id = user_data d !! id).
Proof.
  induction l as [|r l IH]; intros rank d d' Hnd Hrun.
  - injection Hrun as <-. split; [|done]. by intros r ?%elem_of_nil.
  - cbn in Hnd. apply NoDup_cons in Hnd as [Hr Hnd].
    rewrite record_racers_cons in Hrun.
    destruct (racer_data d !! (new_raceid, racer_id r)); [done|].
    destruct (IH _ _ _ Hnd Hrun) as [Hin Hout].
    assert (∀ x, x ∈ l → racer_id x ≠ racer_id r) as Hne.
    { intros x Hx Heq. apply Hr. rewrite <- Heq.
      apply list_elem_of_fmap. by exists x. }
    split.
    + intros x [->|Hx]%elem_of_cons.
      * rewrite Hout by done. cbn. by rewrite lookup_insert_eq.
      * rewrite (Hin x Hx). cbn.
        by rewrite lookup_insert_ne by (intros Heq; by apply (Hne x Hx)).
    + intros id Hid. rewrite Hout by (intros x Hx; apply Hid; by right).
      cbn. rewrite lookup_insert_ne; [done|]. apply Hid. left.
Qed.

(** When [record_race] returns for a race of racers with distinct ids,
    every racer has a [user_data] row afterwards: its name is the racer's
    name, and its other columns are those the row had (the column defaults
    for a new row).  The rows of the users who did not race are as they
    were. *)
Theorem record_race_names_racers (default_user : user_row) (c : connection)
    (race : Race) :
  NoDup (racer_id <$> racers race) →
  (record_race default_user race c).1 = Returned () →
  (∀ r, r ∈ racers race →
     user_data (committed (record_race default_user race c).2) !! racer_id r =
     Some (set_u_name (Some (racer_name r))
             (default default_user (user_data (session c) !! racer_id r)))) ∧
  (∀ id, (∀ r, r ∈ racers race → racer_id r ≠ id) →
     user_data (committed (record_race default_user race c).2) !! id =
     user_data (session c) !! id).
Proof.
  intros Hnd. unfold record_race, DBConnect.
  rewrite record_race_body_unfold.
  set (s := sort_by_key (sort_key (max_time_of (racers race))) (racers race)).
  assert (s ≡ₚ racers race) as Hperm by apply sort_by_key_perm.
  destruct (record_racers _ _ _ s _) as [r d'] eqn:Hrun. cbn.
  intros ->.
  apply record_racers_users in Hrun as [Hin Hout]; [|by rewrite Hperm].
  split.
  - intros r Hr. apply Hin. by rewrite Hperm.
  - intros id Hid. apply Hout. intros r Hr. apply Hid. by rewrite <- Hperm.
Qed.

Lemma record_race_names_racers_witness :
  user_data
    (committed (record_race null_user podium_race (fresh_connection sample_db)).2)
    !! 7 = Some sample_user.
Proof.
  destruct (record_race_names_racers null_user (fresh_connection sample_db)
              podium_race) as [_ H].
  - apply (bool_decide_unpack _). vm_compute. exact I.
  - vm_compute. reflexivity.
  - rewrite H; [vm_compute; reflexivity|].
    intros r Hr. revert Hr. vm_compute.
    intros Hr. repeat (apply elem_of_cons in Hr as [->|Hr]); try discriminate.
    by apply elem_of_nil in Hr.
Defined.

(** ** Registering for a daily and asking for the latest *)

(** After [register_daily] for the daily [daily_id], [registered_daily] of
    the user and type returns.  When the user had no row of the type, where
    [registered_daily] raised [TypeError] before, it returns [daily_id];
    otherwise it returns the larger of [daily_id] and what it returned
    before. *)
Theorem registered_daily_after_register_daily (c : connection)
    (discord_id daily_id daily_type level time : Z) :
  ∃ after,
    (registered_daily discord_id daily_type
       (register_daily discord_id daily_id daily_type level time c).2).1 =
      Returned after ∧
    (((∀ k, daily_races (session c) !! (discord_id, k, daily_type) = None) ∧
      (registered_daily discord_id daily_type c).1 = Raised TypeError ∧
      after = daily_id) ∨
     (∃ before,
        (registered_daily discord_id daily_type c).1 = Returned before ∧
        is_Some (daily_races (session c) !! (discord_id, before, daily_type)) ∧
        after = Z.max daily_id before)).
Proof.
  rewrite !registered_daily_run. cbn [fst].
  destruct (registered_ids_cases
              (session (register_daily discord_id daily_id daily_type level time c).2)
              discord_id daily_type) as [[_ Hnone]|(x & l & -> & Hrow & Hmax)].
  { exfalso. specialize (Hnone daily_id). revert Hnone.
    unfold register_daily, upsert_daily_race. run_scope. cbn.
    by rewrite lookup_insert_eq. }
  revert Hrow Hmax. generalize (foldr Z.max x l) as after. intros after.
  unfold register_daily, upsert_daily_race. run_scope.
  cbn [fst snd session daily_races with_daily_races].
  intros Hrow Hmax. exists after. split; [done|].
  assert (daily_id ≤ after) as Hge.
  { apply Hmax. rewrite lookup_insert_eq. by eexists. }
  assert (after = daily_id ∨
          is_Some (daily_races (session c) !! (discord_id, after, daily_type)))
    as Hwhere.
  { destruct (decide (after = daily_id)) as [|Hne]; [by left | right].
    by rewrite lookup_insert_ne in Hrow by congruence. }
  destruct (registered_ids_cases (session c) discord_id daily_type)
    as [[-> Hnone]|(y & l' & -> & Hrowb & Hmaxb)].
  - left. split; [done|]. split; [done|].
    destruct Hwhere as [|[row Hw]]; [done|]. by rewrite Hnone in Hw.
  - right. exists (foldr Z.max y l'). split; [done|]. split; [done|].
    revert Hrowb Hmaxb. generalize (foldr Z.max y l') as before.
    intros before Hrowb Hmaxb.
    assert (before ≤ after).
    { apply Hmax. destruct (decide (before = daily_id)) as [->|Hne].
      - rewrite lookup_insert_eq. by eexists.
      - by rewrite lookup_insert_ne by congruence. }
    destruct Hwhere as [->|Hw]; [lia|]. apply Hmaxb in Hw. lia.
Qed.

(** On [tied_times] and with room for ten rows, the one row that comes back
    has the total 2: the seeded and the unseeded public race. *)
Lemma get_most_races_leaderboard_totals_witness :
  ∃ rows,
    get_most_races_leaderboard "Cadence" 10 tied_times = (Returned rows, tied_times) ∧
    sum_list_with (λ row : most_races_row, row.1.1.2) rows =
    length (public_allzones_results (session tied_times) "Cadence").
Proof.
  destruct (get_most_races_leaderboard_totals tied_times "Cadence" 10)
    as (rows & Hrun & Hlen & _ & _ & _ & Hsum).
  exists rows. split; [exact Hrun|]. apply Hsum.
  assert (rows = [(Some "alice", 2, 2, 0)%nat]) as ->; [|cbn; lia].
  assert ((get_most_races_leaderboard "Cadence" 10 tied_times).1 =
          Returned [(Some "alice", 2, 2, 0)%nat]) as H
    by (vm_compute; reflexivity).
  rewrite Hrun in H. by injection H.
Defined.
